(** * Hunyuan3D Blender add-on: operator, worker and result handoff

    A shallow embedding of [main.py]: the property group, the operator's
    [invoke], [modal] and [generate_model] methods, the nested
    [import_handler] closure and the panel's [draw] gate.

    Python statements become commands of a small free monad; the host
    (Blender), the file system and the HTTP service are oracles collected
    in an environment record.  Exceptions and [return] are completions, so
    that [try]/[except]/[finally] has its Python meaning. *)

From Stdlib Require Import String Ascii ZArith QArith List Lia Bool.
From stdpp Require Import gmap strings.

Open Scope string_scope.
Open Scope list_scope.

(** ** Strings as Python uses them *)

Definition nl : string := String "010"%char EmptyString.

(** [bool(s)] for a Python [str]: true exactly when non-empty. *)
Definition truthy (s : string) : bool := negb (String.eqb s "").

(** [s.startswith(pre)] *)
Definition startswith (s pre : string) : bool := String.prefix pre s.

(** [s.endswith("/")] *)
Fixpoint ends_with_sep (s : string) : bool :=
  match s with
  | EmptyString => false
  | String c EmptyString => Ascii.eqb c "/"
  | String _ r => ends_with_sep r
  end.

(** [s[n:]] *)
Fixpoint drop_chars (n : nat) (s : string) : string :=
  match n, s with
  | O, _ => s
  | S _, EmptyString => EmptyString
  | S m, String _ r => drop_chars m r
  end.

(** [s[:n]] *)
Fixpoint take_chars (n : nat) (s : string) : string :=
  match n, s with
  | O, _ => EmptyString
  | S _, EmptyString => EmptyString
  | S m, String c r => String c (take_chars m r)
  end.

(** [s == "/" * len(s)] *)
Fixpoint all_sep (s : string) : bool :=
  match s with
  | EmptyString => true
  | String c r => Ascii.eqb c "/" && all_sep r
  end.

(** [s.rstrip("/")] *)
Fixpoint rstrip_sep (s : string) : string :=
  match s with
  | EmptyString => EmptyString
  | String c r => if all_sep r && Ascii.eqb c "/" then EmptyString
                  else String c (rstrip_sep r)
  end.

(** [s.rfind("/") + 1]: the position just after the last separator,
    [0] when there is none. *)
Fixpoint rfind_sep_end (s : string) : nat :=
  match s with
  | EmptyString => O
  | String c r =>
      match rfind_sep_end r with
      | S k => S (S k)
      | O => if Ascii.eqb c "/" then 1%nat else O
      end
  end.

(** ** [os.path] (the POSIX flavour, [posixpath]) *)

Module os_path.

  (** [posixpath.dirname] *)
Definition dirname (p : string) : string :=
    let i := rfind_sep_end p in
    let head := take_chars i p in
    if truthy head && negb (all_sep head) then rstrip_sep head else head.

  (** [posixpath.join(a, b)] with one extra component *)
Definition join (a b : string) : string :=
    if startswith b "/" then b
    else if negb (truthy a) || ends_with_sep a then a ++ b
    else a ++ "/" ++ b.

  (** [posixpath.isabs] *)
Definition isabs (p : string) : bool := startswith p "/".

End os_path.

(** ** [base64.b64encode(...).decode()] on byte strings *)

Definition b64_alphabet : string :=
  "ABCDEFGHIJKLMNOPQRSTUVWXYZabcdefghijklmnopqrstuvwxyz0123456789+/".

Definition b64_char (n : N) : ascii :=
  match String.get (N.to_nat n) b64_alphabet with
  | Some c => c
  | None => "="%char
  end.

Definition b64_group (a b c : N) : string :=
  String (b64_char (N.shiftr a 2))
 (String (b64_char (N.lor (N.shiftl (N.land a 3) 4) (N.shiftr b 4)))
 (String (b64_char (N.lor (N.shiftl (N.land b 15) 2) (N.shiftr c 6)))
 (String (b64_char (N.land c 63)) EmptyString))).

Fixpoint b64encode (s : string) : string :=
  match s with
  | EmptyString => EmptyString
  | String a EmptyString =>
      take_chars 2 (b64_group (N_of_ascii a) 0 0) ++ "=="
  | String a (String b EmptyString) =>
      take_chars 3 (b64_group (N_of_ascii a) (N_of_ascii b) 0) ++ "="
  | String a (String b (String c r)) =>
      b64_group (N_of_ascii a) (N_of_ascii b) (N_of_ascii c) ++ b64encode r
  end.

(** ** Data model *)

(** Floats are only stored and passed on by the add-on, never computed
    with; they are carried as rationals. *)
Definition float := Q.

(** A reference to an object of the host's scene. *)
Definition obj_ref := nat.

(** [Hunyuan3DProperties], the scene-level property group. *)
Module Props.
Record t := mk {
    prompt : string;
    api_url : string;
    is_processing : bool;
    job_id : string;
    status_message : string;
    image_path : string;
    octree_resolution : Z;
    num_inference_steps : Z;
    guidance_scale : float;
    texture : bool
  }.

  (** The declared defaults. *)
Definition default : t :=
    mk "" "http://localhost:8080" false "" "" "" 256 20 (11 # 2) false.
End Props.

(** The attributes of a [Hunyuan3DOperator] instance. *)
Module Op.
Record t := mk {
    job_id : string;
    prompt : string;
    api_url : string;
    image_path : string;
    octree_resolution : Z;
    num_inference_steps : Z;
    guidance_scale : float;
    texture : bool;
    selected_mesh_base64 : string;
    selected_mesh : option obj_ref;
    thread : bool;
    task_finished : bool
  }.

  (** The class-level attribute values a fresh instance starts from
      ([thread] is [None], here [false]: no thread object yet). *)
Definition default : t :=
    mk "" "" "" "" 256 20 (11 # 2) false "" None false false.
End Op.

(** The part of a host object the add-on touches. *)
Module Obj.
Definition vec3 : Type := float * float * float.

Record t := mk {
    type : string;
    location : vec3;
    rotation_euler : vec3;
    scale : vec3;
    hide_get : bool;
    hide_render : bool
  }.
End Obj.

(** The host's scene: the live objects and the current selection. *)
Record Scene := mkScene {
  objects : gmap obj_ref Obj.t;
  selected_objects : list obj_ref
}.

(** An assignment statement to an attribute of [self] or of [props]. *)
Inductive assign :=
| self_prompt (v : string)
| self_api_url (v : string)
| self_image_path (v : string)
| self_octree_resolution (v : Z)
| self_num_inference_steps (v : Z)
| self_guidance_scale (v : float)
| self_texture (v : bool)
| self_selected_mesh_base64 (v : string)
| self_selected_mesh (v : obj_ref)
| self_thread
| self_task_finished (v : bool)
| props_is_processing (v : bool)
| props_status_message (v : string).

(** An assignment to (or setter call on) an attribute of a host object. *)
Inductive obj_assign :=
| set_location (v : Obj.vec3)
| set_rotation_euler (v : Obj.vec3)
| set_scale (v : Obj.vec3)
| hide_set (v : bool)
| set_hide_render (v : bool).

Inductive level := INFO | WARNING | ERROR.

(** JSON values of the request body; the body is the dict literal in
    source order. *)
Inductive json :=
| JStr (s : string)
| JInt (n : Z)
| JFloat (q : float)
| JBool (b : bool).

Definition payload := list (string * json).

Record Response := mkResponse {
  status_code : Z;
  text : string;
  content : string
}.

(** What the operator methods and the timer callback return. *)
Inductive pyret :=
| RetNone
| FINISHED
| RUNNING_MODAL
| CANCELLED
| PASS_THROUGH.

(** The result of a call that may raise: the value, or [str(e)] of the
    exception (every exception met here derives from [Exception]). *)
Inductive result (A : Type) :=
| Ok (a : A)
| Err (msg : string).
Arguments Ok {A} a.
Arguments Err {A} msg.

(** Every effect that leaves the running function, in the order it
    happened. *)
Inductive event :=
| EvReport (lvl : level) (msg : string)
| EvPrint (msg : string)
| EvAssign (a : assign)
| EvObjAssign (o : obj_ref) (a : obj_assign)
| EvTempFile (name : string)
| EvExport (path : string)
| EvRead (path : string)
| EvWrite (path : string) (data : string)
| EvUnlink (path : string)
| EvExists (path : string)
| EvPost (url : string) (body : payload)
| EvImport (path : string)
| EvTimerRegister (temp_name : string)
| EvThreadStart
| EvModalHandlerAdd.

(** The shared state: the property group, the operator instance, the
    host scene, the timers registered with [bpy.app.timers] (each is an
    [import_handler] closure, identified by the temporary file name it
    captured), the number of temporary files made so far, and the log. *)
Record World := mkWorld {
  props : Props.t;
  self : Op.t;
  scene : Scene;
  timers : list string;
  temp_count : nat;
  log : list event
}.

(** The oracles: file system, HTTP service and host operators. *)
Record Env := mkEnv {
  os_path_exists : string -> bool;
  read_file : string -> result string;
  tempfile_name : nat -> result string;
  write_file : string -> string -> result unit;
  os_unlink : string -> result unit;
  requests_post : string -> payload -> result Response;
  export_gltf : string -> Scene -> result unit;
  import_gltf : string -> Scene -> result Scene;
  bpy_data_filepath : string
}.

(** ** Record updates *)

Module OpSet.
Definition prompt v (x : Op.t) : Op.t :=
    Op.mk (Op.job_id x) v (Op.api_url x) (Op.image_path x)
      (Op.octree_resolution x) (Op.num_inference_steps x) (Op.guidance_scale
      x) (Op.texture x) (Op.selected_mesh_base64 x) (Op.selected_mesh x)
      (Op.thread x) (Op.task_finished x).
Definition api_url v (x : Op.t) : Op.t :=
    Op.mk (Op.job_id x) (Op.prompt x) v (Op.image_path x)
      (Op.octree_resolution x) (Op.num_inference_steps x) (Op.guidance_scale
      x) (Op.texture x) (Op.selected_mesh_base64 x) (Op.selected_mesh x)
      (Op.thread x) (Op.task_finished x).
Definition image_path v (x : Op.t) : Op.t :=
    Op.mk (Op.job_id x) (Op.prompt x) (Op.api_url x) v (Op.octree_resolution
      x) (Op.num_inference_steps x) (Op.guidance_scale x) (Op.texture x)
      (Op.selected_mesh_base64 x) (Op.selected_mesh x) (Op.thread x)
      (Op.task_finished x).
Definition octree_resolution v (x : Op.t) : Op.t :=
    Op.mk (Op.job_id x) (Op.prompt x) (Op.api_url x) (Op.image_path x) v
      (Op.num_inference_steps x) (Op.guidance_scale x) (Op.texture x)
      (Op.selected_mesh_base64 x) (Op.selected_mesh x) (Op.thread x)
      (Op.task_finished x).
Definition num_inference_steps v (x : Op.t) : Op.t :=
    Op.mk (Op.job_id x) (Op.prompt x) (Op.api_url x) (Op.image_path x)
      (Op.octree_resolution x) v (Op.guidance_scale x) (Op.texture x)
      (Op.selected_mesh_base64 x) (Op.selected_mesh x) (Op.thread x)
      (Op.task_finished x).
Definition guidance_scale v (x : Op.t) : Op.t :=
    Op.mk (Op.job_id x) (Op.prompt x) (Op.api_url x) (Op.image_path x)
      (Op.octree_resolution x) (Op.num_inference_steps x) v (Op.texture x)
      (Op.selected_mesh_base64 x) (Op.selected_mesh x) (Op.thread x)
      (Op.task_finished x).
Definition texture v (x : Op.t) : Op.t :=
    Op.mk (Op.job_id x) (Op.prompt x) (Op.api_url x) (Op.image_path x)
      (Op.octree_resolution x) (Op.num_inference_steps x) (Op.guidance_scale
      x) v (Op.selected_mesh_base64 x) (Op.selected_mesh x) (Op.thread x)
      (Op.task_finished x).
Definition selected_mesh_base64 v (x : Op.t) : Op.t :=
    Op.mk (Op.job_id x) (Op.prompt x) (Op.api_url x) (Op.image_path x)
      (Op.octree_resolution x) (Op.num_inference_steps x) (Op.guidance_scale
      x) (Op.texture x) v (Op.selected_mesh x) (Op.thread x) (Op.task_finished
      x).
Definition selected_mesh v (x : Op.t) : Op.t :=
    Op.mk (Op.job_id x) (Op.prompt x) (Op.api_url x) (Op.image_path x)
      (Op.octree_resolution x) (Op.num_inference_steps x) (Op.guidance_scale
      x) (Op.texture x) (Op.selected_mesh_base64 x) v (Op.thread x)
      (Op.task_finished x).
Definition thread v (x : Op.t) : Op.t :=
    Op.mk (Op.job_id x) (Op.prompt x) (Op.api_url x) (Op.image_path x)
      (Op.octree_resolution x) (Op.num_inference_steps x) (Op.guidance_scale
      x) (Op.texture x) (Op.selected_mesh_base64 x) (Op.selected_mesh x) v
      (Op.task_finished x).
Definition task_finished v (x : Op.t) : Op.t :=
    Op.mk (Op.job_id x) (Op.prompt x) (Op.api_url x) (Op.image_path x)
      (Op.octree_resolution x) (Op.num_inference_steps x) (Op.guidance_scale
      x) (Op.texture x) (Op.selected_mesh_base64 x) (Op.selected_mesh x)
      (Op.thread x) v.
End OpSet.

Module PropsSet.
Definition is_processing v (x : Props.t) : Props.t :=
    Props.mk (Props.prompt x) (Props.api_url x) v (Props.job_id x)
      (Props.status_message x) (Props.image_path x) (Props.octree_resolution
      x) (Props.num_inference_steps x) (Props.guidance_scale x) (Props.texture
      x).
Definition status_message v (x : Props.t) : Props.t :=
    Props.mk (Props.prompt x) (Props.api_url x) (Props.is_processing x)
      (Props.job_id x) v (Props.image_path x) (Props.octree_resolution x)
      (Props.num_inference_steps x) (Props.guidance_scale x) (Props.texture
      x).
End PropsSet.

Module ObjSet.
Definition location v (x : Obj.t) : Obj.t :=
    Obj.mk (Obj.type x) v (Obj.rotation_euler x) (Obj.scale x) (Obj.hide_get
      x) (Obj.hide_render x).
Definition rotation_euler v (x : Obj.t) : Obj.t :=
    Obj.mk (Obj.type x) (Obj.location x) v (Obj.scale x) (Obj.hide_get x)
      (Obj.hide_render x).
Definition scale v (x : Obj.t) : Obj.t :=
    Obj.mk (Obj.type x) (Obj.location x) (Obj.rotation_euler x) v
      (Obj.hide_get x) (Obj.hide_render x).
Definition hide_get v (x : Obj.t) : Obj.t :=
    Obj.mk (Obj.type x) (Obj.location x) (Obj.rotation_euler x) (Obj.scale
      x) v (Obj.hide_render x).
Definition hide_render v (x : Obj.t) : Obj.t :=
    Obj.mk (Obj.type x) (Obj.location x) (Obj.rotation_euler x) (Obj.scale
      x) (Obj.hide_get x) v.
End ObjSet.

(** ** Commands, programs and completions *)

(** One command per kind of statement that touches shared state or the
    outside; the index is the type of what the statement evaluates to. *)
Inductive cmd : Type -> Type :=
| Report (lvl : level) (msg : string) : cmd unit
| Stdout (msg : string) : cmd unit
| ReadProps : cmd Props.t
| ReadSelf : cmd Op.t
| Assign (a : assign) : cmd unit
| SelectedObjects : cmd (list obj_ref)
| ObjRead (o : obj_ref) : cmd (result Obj.t)
| ObjAssign (o : obj_ref) (a : obj_assign) : cmd (result unit)
| NamedTemporaryFile : cmd (result string)
| ExportGltf (path : string) : cmd (result unit)
| ReadFile (path : string) : cmd (result string)
| WriteFile (path data : string) : cmd (result unit)
| Unlink (path : string) : cmd (result unit)
| PathExists (path : string) : cmd bool
| Post (url : string) (body : payload) : cmd (result Response)
| ImportGltf (path : string) : cmd (result unit)
| TimerRegister (temp_name : string) : cmd unit
| ThreadStart : cmd unit
| ModalHandlerAdd : cmd unit
| DataFilepath : cmd string.

(** A program is a tree of commands; each command is one atomic step. *)
Inductive prog (A : Type) : Type :=
| Done (a : A)
| Do {X : Type} (c : cmd X) (k : X -> prog A).
Arguments Done {A} a.
Arguments Do {A X} c k.

Fixpoint bind {A B : Type} (p : prog A) (f : A -> prog B) : prog B :=
  match p with
  | Done a => f a
  | Do c k => Do c (fun x => bind (k x) f)
  end.

(** How a block of statements ends: it falls through with a value, it
    executes [return], or it raises. *)
Inductive completion (A : Type) :=
| Normal (a : A)
| Returned (r : pyret)
| Raised (msg : string).
Arguments Normal {A} a.
Arguments Returned {A} r.
Arguments Raised {A} msg.

Definition py (A : Type) : Type := prog (completion A).

Definition pret {A : Type} (a : A) : py A := Done (Normal a).

Definition pbind {A B : Type} (p : py A) (f : A -> py B) : py B :=
  bind p (fun c =>
    match c with
    | Normal a => f a
    | Returned r => Done (Returned r)
    | Raised e => Done (Raised e)
    end).

(** A command that cannot raise. *)
Definition exec {X : Type} (c : cmd X) : py X :=
  Do c (fun x => Done (Normal x)).

(** A command whose failure is a raised exception. *)
Definition exec_raising {X : Type} (c : cmd (result X)) : py X :=
  Do c (fun r => match r with
                 | Ok x => Done (Normal x)
                 | Err e => Done (Raised e)
                 end).

Definition raise {A : Type} (msg : string) : py A := Done (Raised msg).
Definition return_ {A : Type} (r : pyret) : py A := Done (Returned r).

(** [try: body / except Exception as e: handler(e)] *)
Definition try_except {A : Type} (body : py A) (handler : string -> py A)
  : py A :=
  bind body (fun c =>
    match c with
    | Raised e => handler e
    | _ => Done c
    end).

(** [try: body / finally: final]: [final] always runs; when it ends
    normally the completion of [body] stands. *)
Definition try_finally {A : Type} (body : py A) (final : py unit) : py A :=
  bind body (fun c =>
    bind final (fun c' =>
      match c' with
      | Normal _ => Done c
      | Returned r => Done (Returned r)
      | Raised e => Done (Raised e)
      end)).

(** A function call: the callee's completion becomes a value or an
    exception of the caller; falling off the end returns [None]. *)
Definition call (body : py unit) : prog (result pyret) :=
  bind body (fun c =>
    match c with
    | Normal _ => Done (Ok RetNone)
    | Returned r => Done (Ok r)
    | Raised e => Done (Err e)
    end).

Declare Scope py_scope.
Delimit Scope py_scope with py.
Notation "x <- c ;; k" := (pbind c (fun x => k))
  (at level 100, c at next level, right associativity) : py_scope.
Notation "c ;; k" := (pbind c (fun _ => k))
  (at level 100, right associativity) : py_scope.

(** ** Semantics of commands *)

Definition with_props (p : Props.t) (w : World) : World :=
  mkWorld p (self w) (scene w) (timers w) (temp_count w) (log w).
Definition with_self (s : Op.t) (w : World) : World :=
  mkWorld (props w) s (scene w) (timers w) (temp_count w) (log w).
Definition with_scene (sc : Scene) (w : World) : World :=
  mkWorld (props w) (self w) sc (timers w) (temp_count w) (log w).
Definition with_timers (t : list string) (w : World) : World :=
  mkWorld (props w) (self w) (scene w) t (temp_count w) (log w).
Definition with_temp_count (n : nat) (w : World) : World :=
  mkWorld (props w) (self w) (scene w) (timers w) n (log w).
Definition record (e : event) (w : World) : World :=
  mkWorld (props w) (self w) (scene w) (timers w) (temp_count w)
          (log w ++ [e]).

Definition apply_assign (a : assign) (w : World) : World :=
  match a with
  | self_prompt v => with_self (OpSet.prompt v (self w)) w
  | self_api_url v => with_self (OpSet.api_url v (self w)) w
  | self_image_path v => with_self (OpSet.image_path v (self w)) w
  | self_octree_resolution v =>
      with_self (OpSet.octree_resolution v (self w)) w
  | self_num_inference_steps v =>
      with_self (OpSet.num_inference_steps v (self w)) w
  | self_guidance_scale v => with_self (OpSet.guidance_scale v (self w)) w
  | self_texture v => with_self (OpSet.texture v (self w)) w
  | self_selected_mesh_base64 v =>
      with_self (OpSet.selected_mesh_base64 v (self w)) w
  | self_selected_mesh v =>
      with_self (OpSet.selected_mesh (Some v) (self w)) w
  | self_thread => with_self (OpSet.thread true (self w)) w
  | self_task_finished v => with_self (OpSet.task_finished v (self w)) w
  | props_is_processing v =>
      with_props (PropsSet.is_processing v (props w)) w
  | props_status_message v =>
      with_props (PropsSet.status_message v (props w)) w
  end.

Definition apply_obj_assign (a : obj_assign) (o : Obj.t) : Obj.t :=
  match a with
  | set_location v => ObjSet.location v o
  | set_rotation_euler v => ObjSet.rotation_euler v o
  | set_scale v => ObjSet.scale v o
  | hide_set v => ObjSet.hide_get v o
  | set_hide_render v => ObjSet.hide_render v o
  end.

(** What the host raises when a reference to a removed object is used. *)
Definition removed_msg : string :=
  "StructRNA of type Object has been removed".

Definition exec_cmd (env : Env) {X : Type} (c : cmd X) (w : World)
  : X * World :=
  match c in cmd X return X * World with
  | Report lvl msg => (tt, record (EvReport lvl msg) w)
  | Stdout msg => (tt, record (EvPrint msg) w)
  | ReadProps => (props w, w)
  | ReadSelf => (self w, w)
  | Assign a => (tt, record (EvAssign a) (apply_assign a w))
  | SelectedObjects => (selected_objects (scene w), w)
  | ObjRead o =>
      (match objects (scene w) !! o with
       | Some ob => Ok ob
       | None => Err removed_msg
       end, w)
  | ObjAssign o a =>
      match objects (scene w) !! o with
      | Some ob =>
          (Ok tt,
           record (EvObjAssign o a)
             (with_scene
                (mkScene (<[o := apply_obj_assign a ob]> (objects (scene w)))
                         (selected_objects (scene w))) w))
      | None => (Err removed_msg, w)
      end
  | NamedTemporaryFile =>
      match tempfile_name env (temp_count w) with
      | Ok name =>
          (Ok name,
           record (EvTempFile name) (with_temp_count (S (temp_count w)) w))
      | Err e => (Err e, w)
      end
  | ExportGltf path =>
      (export_gltf env path (scene w), record (EvExport path) w)
  | ReadFile path => (read_file env path, record (EvRead path) w)
  | WriteFile path data =>
      (write_file env path data, record (EvWrite path data) w)
  | Unlink path => (os_unlink env path, record (EvUnlink path) w)
  | PathExists path => (os_path_exists env path, record (EvExists path) w)
  | Post url body => (requests_post env url body, record (EvPost url body) w)
  | ImportGltf path =>
      match import_gltf env path (scene w) with
      | Ok sc => (Ok tt, record (EvImport path) (with_scene sc w))
      | Err e => (Err e, record (EvImport path) w)
      end
  | TimerRegister name =>
      (tt, record (EvTimerRegister name) (with_timers (timers w ++ [name]) w))
  | ThreadStart => (tt, record EvThreadStart w)
  | ModalHandlerAdd => (tt, record EvModalHandlerAdd w)
  | DataFilepath => (bpy_data_filepath env, w)
  end.

(** Running a program to its end, with nothing interleaved. *)
Fixpoint run (env : Env) {A : Type} (p : prog A) (w : World) : A * World :=
  match p with
  | Done a => (a, w)
  | Do c k => let '(x, w') := exec_cmd env c w in run env (k x) w'
  end.

(** ** The operator, statement by statement *)

Section Operator.
Local Open Scope py_scope.

Definition warn_no_input : string :=
  "Please enter some text or select an image first.".

Definition wait_text : string :=
  "This may take several minutes depending " ++ nl ++ " on your GPU power.".

(** [modal(self, context, event)]; [event_type] is [event.type]. *)
Definition modal (event_type : string) : py unit :=
  if String.eqb event_type "RIGHTMOUSE" || String.eqb event_type "ESC"
  then return_ CANCELLED
  else
    s <- exec ReadSelf ;;
    (if Op.task_finished s then
       exec (Stdout "Threaded task completed") ;;
       exec (Assign (self_task_finished false)) ;;
       exec (Assign (props_is_processing false))
     else pret tt) ;;
    return_ PASS_THROUGH.

(** The [for obj in context.selected_objects] loop of [invoke]: the first
    object of type MESH is kept, then [break]. *)
Fixpoint first_mesh (objs : list obj_ref) : py unit :=
  match objs with
  | [] => pret tt
  | obj :: rest =>
      o <- exec_raising (ObjRead obj) ;;
      if String.eqb (Obj.type o) "MESH"
      then exec (Assign (self_selected_mesh obj))
      else first_mesh rest
  end.

(** [bool(self.selected_mesh)]: a host object reference is truthy. *)
Definition has_mesh (s : Op.t) : bool :=
  match Op.selected_mesh s with
  | Some _ => true
  | None => false
  end.

(** Lines 104-110 of [invoke]: the snapshot of the properties. *)
Definition snapshot_props : py unit :=
  p <- exec ReadProps ;; exec (Assign (self_prompt (Props.prompt p))) ;;
  p <- exec ReadProps ;; exec (Assign (self_api_url (Props.api_url p))) ;;
  p <- exec ReadProps ;;
  exec (Assign (self_image_path (Props.image_path p))) ;;
  p <- exec ReadProps ;;
  exec (Assign (self_octree_resolution (Props.octree_resolution p))) ;;
  p <- exec ReadProps ;;
  exec (Assign (self_num_inference_steps (Props.num_inference_steps p))) ;;
  p <- exec ReadProps ;;
  exec (Assign (self_guidance_scale (Props.guidance_scale p))) ;;
  p <- exec ReadProps ;; exec (Assign (self_texture (Props.texture p))).

(** Lines 117-130: keep the first selected mesh and export it. *)
Definition capture_mesh : py unit :=
  objs <- exec SelectedObjects ;;
  first_mesh objs ;;
  s <- exec ReadSelf ;;
  if has_mesh s then
    temp_glb_file <- exec_raising NamedTemporaryFile ;;
    exec_raising (ExportGltf temp_glb_file) ;;
    mesh_data <- exec_raising (ReadFile temp_glb_file) ;;
    let mesh_b64_str := b64encode mesh_data in
    exec_raising (Unlink temp_glb_file) ;;
    exec (Assign (self_selected_mesh_base64 mesh_b64_str))
  else pret tt.

(** Lines 138-140: the image path relative to the blend file. *)
Definition resolve_image_path (blend_file_dir : string) : py unit :=
  s <- exec ReadSelf ;;
  if startswith (Op.image_path s) "//" then
    exec (Assign (self_image_path (drop_chars 2 (Op.image_path s)))) ;;
    s <- exec ReadSelf ;;
    exec (Assign (self_image_path
                    (os_path.join blend_file_dir (Op.image_path s))))
  else pret tt.

(** The text that lines 142-149 store in [props.status_message]. *)
Definition status_text (s : Op.t) : string :=
  if has_mesh s && Op.texture s then
    "Texturing Selected Mesh..." ++ nl ++ wait_text
  else
    let mesh_type := if Op.texture s then "Textured Mesh" else "White Mesh" in
    let prompt_type := if truthy (Op.prompt s) then "Text Prompt" else "Image" in
    "Generating " ++ mesh_type ++ " with " ++ prompt_type ++ "..." ++ nl
    ++ wait_text.

(** Lines 151-156: start the thread and become modal. *)
Definition launch : py unit :=
  exec (Assign self_thread) ;;
  exec ThreadStart ;;
  exec ModalHandlerAdd ;;
  return_ RUNNING_MODAL.

(** Lines 132-156: raise the busy flag, resolve the image path, set the
    status message and launch. *)
Definition start_job : py unit :=
  exec (Assign (props_is_processing true)) ;;
  filepath <- exec DataFilepath ;;
  let blend_file_dir := os_path.dirname filepath in
  exec (Report INFO ("blend_file_dir " ++ blend_file_dir)) ;;
  s <- exec ReadSelf ;;
  exec (Report INFO ("image_path " ++ Op.image_path s)) ;;
  resolve_image_path blend_file_dir ;;
  s <- exec ReadSelf ;;
  exec (Assign (props_status_message (status_text s))) ;;
  launch.

(** [invoke(self, context, event)] *)
Definition invoke : py unit :=
  snapshot_props ;;
  s <- exec ReadSelf ;;
  if String.eqb (Op.prompt s) "" && String.eqb (Op.image_path s) "" then
    exec (Report WARNING warn_no_input) ;;
    return_ FINISHED
  else
    capture_mesh ;;
    start_job.

(** The four keys every request body ends with. *)
Definition params (s : Op.t) : payload :=
  [ ("octree_resolution", JInt (Op.octree_resolution s));
    ("num_inference_steps", JInt (Op.num_inference_steps s));
    ("guidance_scale", JFloat (Op.guidance_scale s));
    ("texture", JBool (Op.texture s)) ].

(** The [if]/[else] tree of [generate_model] that builds the request
    body and posts it; it evaluates to the response. *)
Definition post_request (base_url : string) : py Response :=
  s <- exec ReadSelf ;;
  if truthy (Op.selected_mesh_base64 s) && Op.texture s then
    s <- exec ReadSelf ;;
    image_ok <- (if truthy (Op.image_path s)
                 then exec (PathExists (Op.image_path s))
                 else pret false) ;;
    if image_ok then
      exec (Report INFO "Post Texturing with Image") ;;
      s <- exec ReadSelf ;;
      image_data <- exec_raising (ReadFile (Op.image_path s)) ;;
      let img_b64_str := b64encode image_data in
      s <- exec ReadSelf ;;
      exec_raising
        (Post (base_url ++ "/generate")
              (("mesh", JStr (Op.selected_mesh_base64 s))
               :: ("image", JStr img_b64_str) :: params s))
    else
      exec (Report INFO "Post Texturing with Text") ;;
      s <- exec ReadSelf ;;
      exec_raising
        (Post (base_url ++ "/generate")
              (("mesh", JStr (Op.selected_mesh_base64 s))
               :: ("text", JStr (Op.prompt s)) :: params s))
  else
    s <- exec ReadSelf ;;
    if truthy (Op.image_path s) then
      s <- exec ReadSelf ;;
      found <- exec (PathExists (Op.image_path s)) ;;
      (if negb found then
         s <- exec ReadSelf ;;
         exec (Report ERROR
                 ("Image path does not exist " ++ Op.image_path s)) ;;
         s <- exec ReadSelf ;;
         raise ("Image path does not exist " ++ Op.image_path s)
       else pret tt) ;;
      exec (Report INFO "Post Start Image to 3D") ;;
      s <- exec ReadSelf ;;
      image_data <- exec_raising (ReadFile (Op.image_path s)) ;;
      let img_b64_str := b64encode image_data in
      s <- exec ReadSelf ;;
      exec_raising
        (Post (base_url ++ "/generate")
              (("image", JStr img_b64_str) :: params s))
    else
      exec (Report INFO "Post Start Text to 3D") ;;
      s <- exec ReadSelf ;;
      exec_raising
        (Post (base_url ++ "/generate")
              (("text", JStr (Op.prompt s)) :: params s)).

(** The body of the [try] block of [generate_model]. *)
Definition generate_model_try (base_url : string) : py unit :=
  response <- post_request base_url ;;
  exec (Report INFO "Post Done") ;;
  exec (Assign (self_task_finished true)) ;;
  exec (Assign (props_is_processing false)) ;;
  (if negb (Z.eqb (status_code response) 200) then
     exec (Report ERROR ("Generation failed: " ++ text response)) ;;
     return_ RetNone
   else pret tt) ;;
  temp_file <- exec_raising NamedTemporaryFile ;;
  exec_raising (WriteFile temp_file (content response)) ;;
  exec (TimerRegister temp_file).

(** The [finally] block of [generate_model]. *)
Definition generate_model_finally : py unit :=
  exec (Assign (self_task_finished true)) ;;
  exec (Assign (props_is_processing false)) ;;
  exec (Assign (self_selected_mesh_base64 "")).

(** [generate_model(self, context)], the thread's target. *)
Definition generate_model : py unit :=
  exec (Report INFO "Generation Start") ;;
  s <- exec ReadSelf ;;
  let base_url := rstrip_sep (Op.api_url s) in
  try_finally
    (try_except
       (generate_model_try base_url)
       (fun e => exec (Report ERROR ("Error: " ++ e))))
    generate_model_finally.

(** [selected_objects[0]] *)
Definition index0 (l : list obj_ref) : py obj_ref :=
  match l with
  | o :: _ => pret o
  | [] => raise "list index out of range"
  end.

(** The closure [import_handler] that [generate_model] registers as a
    timer; [temp_name] is the captured [temp_file.name]. *)
Definition import_handler (temp_name : string) : py unit :=
  exec_raising (ImportGltf temp_name) ;;
  exec_raising (Unlink temp_name) ;;
  sel <- exec SelectedObjects ;;
  new_obj <- (match sel with
              | _ :: _ =>
                  sel' <- exec SelectedObjects ;;
                  o <- index0 sel' ;;
                  pret (Some o)
              | [] => pret None
              end) ;;
  s <- exec ReadSelf ;;
  (match new_obj, Op.selected_mesh s with
   | Some new, Some mesh =>
       if Op.texture s then
         src <- exec_raising (ObjRead mesh) ;;
         exec_raising (ObjAssign new (set_location (Obj.location src))) ;;
         src <- exec_raising (ObjRead mesh) ;;
         exec_raising
           (ObjAssign new (set_rotation_euler (Obj.rotation_euler src))) ;;
         src <- exec_raising (ObjRead mesh) ;;
         exec_raising (ObjAssign new (set_scale (Obj.scale src))) ;;
         exec_raising (ObjAssign mesh (hide_set true)) ;;
         exec_raising (ObjAssign mesh (set_hide_render true))
       else pret tt
   | _, _ => pret tt
   end) ;;
  return_ RetNone.

End Operator.

(** [Hunyuan3DPanel.draw]: whether the row holding the operator button
    is enabled. *)
Definition draw_row_enabled (p : Props.t) : bool :=
  negb (Props.is_processing p).

(** ** The job as the host sees it *)

Inductive job_state := Idle | Running | Finished.

(** [task_finished] marks a terminal state waiting to be collected by
    [modal]; otherwise the busy flag tells Running from Idle. *)
Definition job_state_of (w : World) : job_state :=
  if Op.task_finished (self w) then Finished
  else if Props.is_processing (props w) then Running
  else Idle.

(** ** The host loop and the worker thread, interleaved *)

(** The host's main thread runs [invoke], [modal] and the timers, each
    to its end; the worker thread runs [generate_model] one command at a
    time, and the schedule says who moves next. *)
Record Config := mkConfig {
  world : World;
  worker : option (prog (result pyret));
  modal_on : bool
}.

Inductive tick :=
| WorkerStep
| HostEvent (event_type : string)
| HostTimer.

(** The host calls [invoke]; [RUNNING_MODAL] means the thread was started
    and the operator is now a modal handler. *)
Definition start (env : Env) (w : World) : Config :=
  let '(r, w') := run env (call invoke) w in
  match r with
  | Ok RUNNING_MODAL => mkConfig w' (Some (call generate_model)) true
  | _ => mkConfig w' None false
  end.

Definition step (env : Env) (c : Config) (t : tick) : Config :=
  match t with
  | WorkerStep =>
      match worker c with
      | Some (Do cm k) =>
          let '(x, w') := exec_cmd env cm (world c) in
          mkConfig w' (Some (k x)) (modal_on c)
      | Some (Done _) => mkConfig (world c) None (modal_on c)
      | None => c
      end
  | HostEvent event_type =>
      if modal_on c then
        let '(r, w') := run env (call (modal event_type)) (world c) in
        mkConfig w' (worker c)
                 (match r with Ok PASS_THROUGH => true | _ => false end)
      else c
  | HostTimer =>
      match timers (world c) with
      | temp_name :: rest =>
          let '(_, w') := run env (call (import_handler temp_name))
                              (with_timers rest (world c)) in
          mkConfig w' (worker c) (modal_on c)
      | [] => c
      end
  end.

(** An execution: [invoke], then the schedule. *)
Definition execute (env : Env) (w : World) (sched : list tick) : Config :=
  fold_left (step env) sched (start env w).

(** ** Properties of logs *)

Definition is_terminal_write (e : event) : bool :=
  match e with
  | EvAssign (self_task_finished true) => true
  | _ => false
  end.

(** [modal] saw [task_finished] and cleared it. *)
Definition is_reset (e : event) : bool :=
  match e with
  | EvAssign (self_task_finished false) => true
  | _ => false
  end.

(** The handoff action runs: the asset is imported. *)
Definition is_handoff (e : event) : bool :=
  match e with
  | EvImport _ => true
  | _ => false
  end.

Definition is_register (e : event) : bool :=
  match e with
  | EvTimerRegister _ => true
  | _ => false
  end.

(** The outcome is on record: the asset is handed to a timer, or the
    error is reported. *)
Definition is_outcome (e : event) : bool :=
  match e with
  | EvTimerRegister _ => true
  | EvReport ERROR _ => true
  | _ => false
  end.

Definition is_thread_start (e : event) : bool :=
  match e with
  | EvThreadStart => true
  | _ => false
  end.

(** The request bodies sent, in order. *)
Fixpoint posted (l : list event) : list payload :=
  match l with
  | [] => []
  | EvPost _ body :: r => body :: posted r
  | _ :: r => posted r
  end.

(** The ordering the specification asks of a chronological log: when the
    host collects the terminal state the outcome is already on record,
    and the handoff runs after a terminal write and before any reset. *)
Fixpoint spec_ordering_from (terminal outcome reset : bool) (l : list event)
  : bool :=
  match l with
  | [] => true
  | e :: r =>
      (if is_reset e then outcome else true)
      && (if is_handoff e then terminal && negb reset else true)
      && spec_ordering_from (terminal || is_terminal_write e)
                            (outcome || is_outcome e)
                            (reset || is_reset e) r
  end.

Definition spec_ordering (l : list event) : bool :=
  spec_ordering_from false false false l.

(** What the code does guarantee: a handoff is registered, and run, only
    after a terminal write. *)
Fixpoint handoff_after_terminal_from (terminal : bool) (l : list event)
  : bool :=
  match l with
  | [] => true
  | e :: r =>
      (if is_handoff e || is_register e then terminal else true)
      && handoff_after_terminal_from (terminal || is_terminal_write e) r
  end.

Definition handoff_after_terminal (l : list event) : bool :=
  handoff_after_terminal_from false l.

(** ** Completions of a whole program *)

(** Every path through [p] ends in a completion satisfying [P]. *)
Fixpoint ends_in {A : Type} (P : completion A -> Prop) (p : py A) : Prop :=
  match p with
  | Done c => P c
  | Do _ k => forall x, ends_in P (k x)
  end.


(** ** The request body as the specification words it *)

(** The events logged between two states of the same run. *)
Definition new_events (w w' : World) : list event :=
  skipn (length (log w)) (log w').

(** The four shapes by the specification's precedence: [image_exists]
    says that the image path resolves to an existing file, [img_b64] is
    that file's content in base64. *)
Definition spec_payload (s : Op.t) (image_exists : bool) (img_b64 : string)
  : payload :=
  let mesh_texture := truthy (Op.selected_mesh_base64 s) && Op.texture s in
  if mesh_texture && image_exists then
    ("mesh", JStr (Op.selected_mesh_base64 s))
    :: ("image", JStr img_b64) :: params s
  else if mesh_texture then
    ("mesh", JStr (Op.selected_mesh_base64 s))
    :: ("text", JStr (Op.prompt s)) :: params s
  else if image_exists then
    ("image", JStr img_b64) :: params s
  else
    ("text", JStr (Op.prompt s)) :: params s.

(** The keys of a request body. *)
Definition keys (body : payload) : list string := map fst body.

(** ** What [invoke] computes, in closed form *)

(** The first selected object of type MESH, as the loop of [invoke]
    finds it; a removed object makes the attribute read raise. *)
Fixpoint find_mesh (objs : gmap obj_ref Obj.t) (l : list obj_ref)
  : result (option obj_ref) :=
  match l with
  | [] => Ok None
  | o :: r =>
      match objs !! o with
      | None => Err removed_msg
      | Some ob =>
          if String.eqb (Obj.type ob) "MESH" then Ok (Some o)
          else find_mesh objs r
      end
  end.

(** The instance attributes after the seven snapshot assignments. *)
Definition snapshot_self (p : Props.t) (s : Op.t) : Op.t :=
  Op.mk (Op.job_id s) (Props.prompt p) (Props.api_url p) (Props.image_path p)
        (Props.octree_resolution p) (Props.num_inference_steps p)
        (Props.guidance_scale p) (Props.texture p)
        (Op.selected_mesh_base64 s) (Op.selected_mesh s) (Op.thread s)
        (Op.task_finished s).

Definition snapshot_events (p : Props.t) : list event :=
  [ EvAssign (self_prompt (Props.prompt p));
    EvAssign (self_api_url (Props.api_url p));
    EvAssign (self_image_path (Props.image_path p));
    EvAssign (self_octree_resolution (Props.octree_resolution p));
    EvAssign (self_num_inference_steps (Props.num_inference_steps p));
    EvAssign (self_guidance_scale (Props.guidance_scale p));
    EvAssign (self_texture (Props.texture p)) ].

Definition snapshot_world (w : World) : World :=
  mkWorld (props w) (snapshot_self (props w) (self w)) (scene w) (timers w)
          (temp_count w) (log w ++ snapshot_events (props w)).

(** The image path as lines 138-140 leave it. *)
Definition resolved_path (blend_filepath p : string) : string :=
  if startswith p "//"
  then os_path.join (os_path.dirname blend_filepath) (drop_chars 2 p)
  else p.

(** The same world with the two job flags overwritten. *)
Definition set_job_flags (busy finished : bool) (w : World) : World :=
  with_self (OpSet.task_finished finished (self w))
    (with_props (PropsSet.is_processing busy (props w)) w).

(** Two worlds that differ at most in the job flags [is_processing] and
    [task_finished]. *)
Definition same_but_flags (w1 w2 : World) : Prop :=
  set_job_flags false false w1 = set_job_flags false false w2.

(** ** Programs that hand off only after a terminal write *)

Definition cmd_is_handoff {X : Type} (c : cmd X) : bool :=
  match c with
  | TimerRegister _ => true
  | ImportGltf _ => true
  | _ => false
  end.

Definition cmd_is_terminal {X : Type} (c : cmd X) : bool :=
  match c with
  | Assign (self_task_finished true) => true
  | _ => false
  end.

(** On every path of [p], a timer is registered or an asset imported
    only once [task_finished] has been set; [seen] says whether that has
    happened before [p] starts. *)
Fixpoint guarded {A : Type} (seen : bool) (p : prog A) : Prop :=
  match p with
  | Done _ => True
  | Do c k =>
      (cmd_is_handoff c = true -> seen = true)
      /\ forall x, guarded (seen || cmd_is_terminal c) (k x)
  end.

Definition terminal_written (w : World) : bool :=
  existsb is_terminal_write (log w).

(** The invariant of the interleaved executions. *)
Definition config_ok (c : Config) : Prop :=
  handoff_after_terminal (log (world c)) = true
  /\ (timers (world c) <> [] -> terminal_written (world c) = true)
  /\ match worker c with
     | Some p => guarded (terminal_written (world c)) p
     | None => True
     end.

(** ** Concrete scenarios *)

Definition chair_obj : Obj.t :=
  Obj.mk "MESH" (1, 2, 3)%Q (0, 0, 1 # 2)%Q (2, 2, 2)%Q false false.

Definition imported_obj : Obj.t :=
  Obj.mk "MESH" (0, 0, 0)%Q (0, 0, 0)%Q (1, 1, 1)%Q false false.

(** A host with one image on disk, a saved blend file, a service that
    answers [post], and an importer that adds object 7 and leaves
    [selected_after_import] selected. *)
Definition demo_env (post : Response) (selected_after_import : list obj_ref)
  : Env :=
  mkEnv (fun p => String.eqb p "/img/cat.png")
        (fun p => if String.eqb p "/img/cat.png" then Ok "PNG"
                  else if String.eqb p "/tmp/t.glb" then Ok "glTF"
                  else Err "No such file or directory")
        (fun _ => Ok "/tmp/t.glb")
        (fun _ _ => Ok tt)
        (fun _ => Ok tt)
        (fun _ _ => Ok post)
        (fun _ _ => Ok tt)
        (fun _ sc =>
           Ok (mkScene (<[7%nat := imported_obj]> (objects sc))
                       selected_after_import))
        "/home/u/scene.blend".

Definition env_ok : Env := demo_env (mkResponse 200 "" "GLB") [7%nat].
Definition env_500 : Env := demo_env (mkResponse 500 "OOM" "OOM") [7%nat].
Definition env_201 : Env := demo_env (mkResponse 201 "Created" "GLB") [7%nat].
Definition env_nothing_selected : Env :=
  demo_env (mkResponse 200 "" "GLB") [].

Definition scene_empty : Scene := mkScene ∅ [].
Definition scene_chair : Scene := mkScene {[ 1%nat := chair_obj ]} [1%nat].

(** [scene_chair] as the demo importer leaves it. *)
Definition scene_chair_imported (selected : list obj_ref) : Scene :=
  mkScene (<[7%nat := imported_obj]> (objects scene_chair)) selected.

(** A fresh operator instance over the given properties and scene. *)
Definition fresh_world (p : Props.t) (sc : Scene) : World :=
  mkWorld p Op.default sc [] 0 [].

(** The specification's text-only scenario. *)
Definition props_text : Props.t :=
  Props.mk "a red chair" "http://localhost:8080" false "" "" "" 256 20
           (11 # 2) false.

Definition props_missing_image : Props.t :=
  Props.mk "" "http://localhost:8080" false "" "" "missing.png" 256 20
           (11 # 2) false.

Definition props_relative_image : Props.t :=
  Props.mk "" "http://localhost:8080" false "" "" "cat.png" 256 20
           (11 # 2) false.

Definition props_blend_relative_image : Props.t :=
  Props.mk "" "http://localhost:8080" false "" "" "//tex/cat.png" 256 20
           (11 # 2) false.

(** Nothing typed, texture requested; used with a selected mesh. *)
Definition props_mesh_only : Props.t :=
  Props.mk "" "http://localhost:8080" false "" "" "" 256 20 (11 # 2) true.

Definition props_mesh_texture : Props.t :=
  Props.mk "oak wood" "http://localhost:8080" false "" "" "" 256 20
           (11 # 2) true.

(** A job is running (busy flag up, its status message shown) and the
    user has typed a new prompt. *)
Definition props_busy : Props.t :=
  Props.mk "a blue vase" "http://localhost:8080" true ""
           ("Generating White Mesh with Image..." ++ nl ++ wait_text) ""
           256 20 (11 # 2) true.

(** The worker reaches line 227, the host delivers an event, the worker
    finishes, the timer fires. *)
Definition schedule_early_poll : list tick :=
  repeat WorkerStep 10 ++ [HostEvent "MOUSEMOVE"]
  ++ repeat WorkerStep 7 ++ [HostTimer].

(** The worker runs to its end, then the timer fires. *)
Definition schedule_worker_then_timer : list tick :=
  repeat WorkerStep 40 ++ [HostTimer].

Definition schedule_worker_only : list tick := repeat WorkerStep 40.

(** The state in which the worker starts: [invoke] has returned. *)
Definition after_invoke (env : Env) (w : World) : World :=
  snd (run env (call invoke) w).

(** Whether a source mesh is at hand: one captured earlier on this
    instance, or a mesh among the selected objects. *)
Definition source_mesh_present (w : World) : bool :=
  has_mesh (self w)
  || match find_mesh (objects (scene w)) (selected_objects (scene w)) with
     | Ok (Some _) => true
     | _ => false
     end.

(** ** The claims as the specification words them *)

(** Single flight: a submission while the job is not Idle fails, starts
    no thread and leaves the properties as they were. *)
Definition spec_single_flight : Prop :=
  forall env w,
    job_state_of w <> Idle ->
    let out := run env (call invoke) w in
    (exists e, fst out = Err e)
    /\ existsb is_thread_start (new_events w (snd out)) = false
    /\ props (snd out) = props w.

(** Validation: rejected exactly when prompt, image path and source mesh
    are all missing. *)
Definition spec_validation : Prop :=
  forall env w,
    fst (run env (call invoke) w) = Ok FINISHED <->
    Props.prompt (props w) = "" /\ Props.image_path (props w) = ""
    /\ source_mesh_present w = false.

(** Ordering: in every execution the log satisfies [spec_ordering]. *)
Definition spec_worker_ordering : Prop :=
  forall env w sched,
    log w = [] -> timers w = [] ->
    spec_ordering (log (world (execute env w sched))) = true.

(** Shape selection: every input produces exactly one body, the one the
    four-way precedence picks. *)
Definition spec_request_shape : Prop :=
  forall env base w,
    let s := self w in
    let image_exists :=
      truthy (Op.image_path s) && os_path_exists env (Op.image_path s) in
    exists img_b64,
      posted (new_events w (snd (run env (post_request base) w))) =
      [spec_payload s image_exists img_b64].

Definition is_2xx (r : Response) : bool :=
  (200 <=? status_code r)%Z && (status_code r <? 300)%Z.

(** Remote failure: a 2xx response never takes the failure branch. *)
Definition spec_remote_failure : Prop :=
  forall env w resp w1,
    run env (post_request (rstrip_sep (Op.api_url (self w))))
        (record (EvReport INFO "Generation Start") w) = (Normal resp, w1) ->
    is_2xx resp = true ->
    ~ In (EvReport ERROR ("Generation failed: " ++ text resp))
         (log (snd (run env (call generate_model) w))).

(** Mesh replace: whenever the handoff of a mesh-replace submission
    completes, the source object ends hidden in viewport and render. *)
Definition spec_mesh_replace : Prop :=
  forall env temp_name w mesh src,
    Op.selected_mesh (self w) = Some mesh ->
    Op.texture (self w) = true ->
    objects (scene w) !! mesh = Some src ->
    let out := run env (call (import_handler temp_name)) w in
    fst out = Ok RetNone ->
    exists src',
      objects (scene (snd out)) !! mesh = Some src'
      /\ Obj.hide_get src' = true /\ Obj.hide_render src' = true.

(** Image path: every non-empty path is absolute once [invoke] is done. *)
Definition spec_image_path_absolute : Prop :=
  forall env w,
    let out := run env (call invoke) w in
    fst out = Ok RUNNING_MODAL ->
    Props.image_path (props w) <> "" ->
    os_path.isabs (Op.image_path (self (snd out))) = true.

(** ** The panel *)

(** What [Hunyuan3DPanel.draw] puts into the layout, in order:
    [layout.prop(props, name)], [row.operator(idname)] in a row with the
    given [enabled], [layout.label(text=label)], and [layout.label(arg)]
    with the text passed by position. *)
Inductive ui_item :=
| UiProp (name : string)
| UiOperator (enabled : bool) (idname : string)
| UiLabel (label : string)
| UiLabelPositional (arg : string).

(** [s.split("\n")] *)
Fixpoint split_lines (s : string) : list string :=
  match s with
  | EmptyString => [EmptyString]
  | String c r =>
      if Ascii.eqb c "010" then EmptyString :: split_lines r
      else match split_lines r with
           | h :: t => String c h :: t
           | [] => [String c EmptyString]
           end
  end.

(** ["\n".join(l)], the inverse the panel's reader applies. *)
Fixpoint join_lines (l : list string) : string :=
  match l with
  | [] => EmptyString
  | x :: r =>
      match r with
      | [] => x
      | _ :: _ => x ++ nl ++ join_lines r
      end
  end.

Definition bl_idname : string := "object.generate_3d".

(** [Hunyuan3DPanel.draw(self, context)] *)
Definition draw (p : Props.t) : list ui_item :=
  [ UiProp "api_url"; UiProp "prompt"; UiProp "image_path";
    UiProp "octree_resolution"; UiProp "num_inference_steps";
    UiProp "guidance_scale"; UiProp "texture";
    UiOperator (negb (Props.is_processing p)) bl_idname ]
  ++ (if Props.is_processing p then
        if truthy (Props.status_message p)
        then map UiLabel (split_lines (Props.status_message p))
        else [UiLabelPositional "Processing..."]
      else []).

(** A call of [layout.label], either way. *)
Definition is_label_call (i : ui_item) : bool :=
  match i with
  | UiLabel _ | UiLabelPositional _ => true
  | _ => false
  end.

(** The [text=] labels of a layout, in order. *)
Fixpoint labels (l : list ui_item) : list string :=
  match l with
  | [] => []
  | UiLabel t :: r => t :: labels r
  | _ :: r => labels r
  end.

(** Whether a string holds a newline. *)
Fixpoint has_newline (s : string) : bool :=
  match s with
  | EmptyString => false
  | String c r => Ascii.eqb c "010" || has_newline r
  end.

(** ** Programs built from a given set of commands *)

(** Every command on every path of [p] satisfies [P]. *)
Fixpoint all_cmds (P : forall X : Type, cmd X -> bool) {A : Type}
  (p : prog A) : Prop :=
  match p with
  | Done _ => True
  | Do c k => P _ c = true /\ forall x, all_cmds P (k x)
  end.

(** Commands that leave the host and the job flags alone: no property
    or object is written, no asset imported, no timer or thread started. *)
Definition cmd_is_local {X : Type} (c : cmd X) : bool :=
  match c with
  | Assign self_thread => false
  | Assign (self_task_finished _) => false
  | Assign (props_is_processing _) => false
  | Assign (props_status_message _) => false
  | ObjAssign _ _ => false
  | ImportGltf _ => false
  | TimerRegister _ => false
  | ThreadStart => false
  | ModalHandlerAdd => false
  | _ => true
  end.

(** The events a local command may log. *)
Definition event_is_local (e : event) : bool :=
  match e with
  | EvAssign self_thread => false
  | EvAssign (self_task_finished _) => false
  | EvAssign (props_is_processing _) => false
  | EvAssign (props_status_message _) => false
  | EvObjAssign _ _ => false
  | EvImport _ => false
  | EvTimerRegister _ => false
  | EvThreadStart => false
  | EvModalHandlerAdd => false
  | _ => true
  end.

(** What a run of local commands leaves as it was. *)
Definition local_frame (w0 w : World) : Prop :=
  props w = props w0 /\ scene w = scene w0 /\ timers w = timers w0
  /\ Op.thread (self w) = Op.thread (self w0)
  /\ Op.task_finished (self w) = Op.task_finished (self w0)
  /\ exists new, log w = log w0 ++ new
                 /\ forallb event_is_local new = true.

(** The commands of the worker thread: it reports, reads its own
    attributes, touches files and the network, writes the two job flags
    and the mesh snapshot, and registers a timer; it never reads the
    property values, never writes another attribute, never touches an
    object. *)
Definition cmd_is_worker {X : Type} (c : cmd X) : bool :=
  match c with
  | Report _ _ => true
  | ReadSelf => true
  | Assign (self_task_finished _) => true
  | Assign (props_is_processing _) => true
  | Assign (self_selected_mesh_base64 _) => true
  | NamedTemporaryFile => true
  | ReadFile _ => true
  | WriteFile _ _ => true
  | PathExists _ => true
  | Post _ _ => true
  | TimerRegister _ => true
  | _ => false
  end.

(** The attributes of [self] that the worker only reads. *)
Definition snapshot_of (s : Op.t) :=
  (Op.prompt s, Op.api_url s, Op.image_path s, Op.octree_resolution s,
   Op.num_inference_steps s, Op.guidance_scale s, Op.texture s,
   Op.selected_mesh s).

(** The properties the worker never writes: all but the busy flag. *)
Definition settings_of (p : Props.t) :=
  (Props.prompt p, Props.api_url p, Props.job_id p, Props.status_message p,
   Props.image_path p, Props.octree_resolution p,
   Props.num_inference_steps p, Props.guidance_scale p, Props.texture p).

Definition cmd_is_post {X : Type} (c : cmd X) : bool :=
  match c with
  | Post _ _ => true
  | _ => false
  end.

(** On every path of [p] at most [n] requests are posted, each to
    [url]. *)
Fixpoint posts_at_most (url : string) (n : nat) {A : Type} (p : prog A)
  : Prop :=
  match p with
  | Done _ => True
  | Do c k =>
      match c with
      | Post u _ => u = url /\ n <> O
      | _ => True
      end
      /\ forall x, posts_at_most url (if cmd_is_post c then pred n else n)
                                 (k x)
  end.

(** The URLs of the requests sent, in order. *)
Fixpoint posted_urls (l : list event) : list string :=
  match l with
  | [] => []
  | EvPost url _ :: r => url :: posted_urls r
  | _ :: r => posted_urls r
  end.

(** What the worker leaves as it was: the scene, the attributes it only
    reads, and every property but the busy flag. *)
Definition worker_frame (w0 w : World) : Prop :=
  scene w = scene w0
  /\ snapshot_of (self w) = snapshot_of (self w0)
  /\ settings_of (props w) = settings_of (props w0).

(** Two worlds that agree on everything but the property group. *)
Definition same_but_props (w1 w2 : World) : Prop :=
  self w1 = self w2 /\ scene w1 = scene w2 /\ timers w1 = timers w2
  /\ temp_count w1 = temp_count w2 /\ log w1 = log w2.

Definition cmd_keeps_timers {X : Type} (c : cmd X) : bool :=
  match c with
  | TimerRegister _ => false
  | _ => true
  end.

(** The attributes of [self] that go into the request as they are. *)
Definition request_fields (s : Op.t) :=
  (Op.prompt s, Op.api_url s, Op.octree_resolution s,
   Op.num_inference_steps s, Op.guidance_scale s, Op.texture s).

(** Commands that write none of them. *)
Definition cmd_keeps_request_fields {X : Type} (c : cmd X) : bool :=
  match c with
  | Assign (self_prompt _) => false
  | Assign (self_api_url _) => false
  | Assign (self_octree_resolution _) => false
  | Assign (self_num_inference_steps _) => false
  | Assign (self_guidance_scale _) => false
  | Assign (self_texture _) => false
  | _ => true
  end.

(** What the user enters on the panel. *)
Definition inputs_of (p : Props.t) :=
  (Props.prompt p, Props.api_url p, Props.job_id p, Props.image_path p,
   Props.octree_resolution p, Props.num_inference_steps p,
   Props.guidance_scale p, Props.texture p).

(** ** Further scenarios *)

(** The state in which the worker ends. *)
Definition after_worker (env : Env) (w : World) : World :=
  snd (run env (call generate_model) (after_invoke env w)).

(** [env_ok] with the service unreachable. *)
Definition env_offline : Env :=
  mkEnv (os_path_exists env_ok) (read_file env_ok) (tempfile_name env_ok)
        (write_file env_ok) (os_unlink env_ok)
        (fun _ _ => Err "Connection refused")
        (export_gltf env_ok) (import_gltf env_ok) (bpy_data_filepath env_ok).

(** [env_ok] with a full disk. *)
Definition env_disk_full : Env :=
  mkEnv (os_path_exists env_ok) (read_file env_ok) (tempfile_name env_ok)
        (fun _ _ => Err "No space left on device") (os_unlink env_ok)
        (requests_post env_ok)
        (export_gltf env_ok) (import_gltf env_ok) (bpy_data_filepath env_ok).

(** [env_ok] with an exporter that fails. *)
Definition env_export_fails : Env :=
  mkEnv (os_path_exists env_ok) (read_file env_ok) (tempfile_name env_ok)
        (write_file env_ok) (os_unlink env_ok) (requests_post env_ok)
        (fun _ _ => Err "Export failed")
        (import_gltf env_ok) (bpy_data_filepath env_ok).

(** [env_ok] with an importer that rejects the asset. *)
Definition env_bad_asset : Env :=
  mkEnv (os_path_exists env_ok) (read_file env_ok) (tempfile_name env_ok)
        (write_file env_ok) (os_unlink env_ok) (requests_post env_ok)
        (export_gltf env_ok)
        (fun _ _ => Err "Bad glTF: json error")
        (bpy_data_filepath env_ok).


Definition lamp_obj : Obj.t :=
  Obj.mk "LIGHT" (4, 1, 6)%Q (0, 0, 0)%Q (1, 1, 1)%Q false false.

(** A lamp and the chair, the lamp selected first. *)
Definition scene_lamp_chair : Scene :=
  mkScene (<[2%nat := lamp_obj]> (objects scene_chair)) [2%nat; 1%nat].

(** [scene_empty] as the demo importer leaves it. *)
Definition scene_empty_imported : Scene :=
  mkScene (<[7%nat := imported_obj]> (objects scene_empty)) [7%nat].

(** A prompt and an image at once, no texture. *)
Definition props_prompt_and_image : Props.t :=
  Props.mk "a red chair" "http://localhost:8080" false "" "" "/img/cat.png"
           256 20 (11 # 2) false.

(** * Verification *)

(** ** The string and path helpers on known values *)

Example b64encode_Man : b64encode "Man" = "TWFu". Proof. reflexivity. Qed.
Example b64encode_Ma : b64encode "Ma" = "TWE=". Proof. reflexivity. Qed.
Example b64encode_M : b64encode "M" = "TQ==". Proof. reflexivity. Qed.
Example b64encode_light : b64encode "light work." = "bGlnaHQgd29yay4=".
Proof. reflexivity. Qed.

Example dirname_file : os_path.dirname "/home/u/scene.blend" = "/home/u".
Proof. reflexivity. Qed.
Example dirname_root : os_path.dirname "/scene.blend" = "/".
Proof. reflexivity. Qed.
Example dirname_unsaved : os_path.dirname "" = "".
Proof. reflexivity. Qed.
Example join_plain : os_path.join "/home/u" "tex/a.png" = "/home/u/tex/a.png".
Proof. reflexivity. Qed.
Example join_empty : os_path.join "" "a.png" = "a.png".
Proof. reflexivity. Qed.
Example rstrip_url : rstrip_sep "http://localhost:8080//" = "http://localhost:8080".
Proof. reflexivity. Qed.

(** ** Running programs *)

Lemma run_bind env {A B : Type} (p : prog A) (f : A -> prog B) w :
  run env (bind p f) w = let '(a, w') := run env p w in run env (f a) w'.
Proof.
  revert w. induction p as [a | X c k IH]; intros w; simpl.
  - reflexivity.
  - destruct (exec_cmd env c w) as [x w']. apply IH.
Qed.

Lemma run_pbind env {A B : Type} (p : py A) (f : A -> py B) w :
  run env (pbind p f) w =
  let '(c, w1) := run env p w in
  match c with
  | Normal a => run env (f a) w1
  | Returned r => (Returned r, w1)
  | Raised e => (Raised e, w1)
  end.
Proof.
  unfold pbind. rewrite run_bind.
  destruct (run env p w) as [[a | r | e] w1]; reflexivity.
Qed.

Lemma run_try_finally env {A : Type} (body : py A) (final : py unit) w :
  run env (try_finally body final) w =
  let '(c, w1) := run env body w in
  let '(c', w2) := run env final w1 in
  (match c' with
   | Normal _ => c
   | Returned r => Returned r
   | Raised e => Raised e
   end, w2).
Proof.
  unfold try_finally. rewrite run_bind.
  destruct (run env body w) as [c w1]. rewrite run_bind.
  destruct (run env final w1) as [[u | r | e] w2]; reflexivity.
Qed.

Lemma run_call env (body : py unit) w :
  run env (call body) w =
  let '(c, w1) := run env body w in
  (match c with
   | Normal _ => Ok RetNone
   | Returned r => Ok r
   | Raised e => Err e
   end, w1).
Proof.
  unfold call. rewrite run_bind.
  destruct (run env body w) as [[u | r | e] w1]; reflexivity.
Qed.

(** ** The worker *)

Lemma run_generate_model_finally env w :
  run env generate_model_finally w =
  (Normal tt,
   record (EvAssign (self_selected_mesh_base64 ""))
     (apply_assign (self_selected_mesh_base64 "")
        (record (EvAssign (props_is_processing false))
           (apply_assign (props_is_processing false)
              (record (EvAssign (self_task_finished true))
                 (apply_assign (self_task_finished true) w)))))).
Proof. reflexivity. Qed.

Lemma run_generate_model env w :
  run env (call generate_model) w =
  let '(c, w1) :=
    run env
      (try_except (generate_model_try (rstrip_sep (Op.api_url (self w))))
                  (fun e => exec (Report ERROR ("Error: " ++ e))))
      (record (EvReport INFO "Generation Start") w) in
  (match c with
   | Normal _ => Ok RetNone
   | Returned r => Ok r
   | Raised e => Err e
   end,
   snd (run env generate_model_finally w1)).
Proof.
  rewrite run_call. unfold generate_model.
  rewrite run_pbind. simpl run at 1. cbv beta iota.
  rewrite run_pbind. simpl run at 1. cbv beta iota.
  rewrite run_try_finally. simpl self.
  destruct (run env (try_except _ _) _) as [c w1].
  rewrite run_generate_model_finally.
  destruct c; reflexivity.
Qed.

Lemma run_ends_in env {A : Type} (P : completion A -> Prop) (p : py A) w :
  ends_in P p -> P (fst (run env p w)).
Proof.
  revert w. induction p as [a | X c k IH]; intros w H; simpl in *.
  - exact H.
  - destruct (exec_cmd env c w) as [x w']. apply IH, H.
Qed.

Ltac crunch :=
  repeat (cbn;
          match goal with
          | |- forall _, _ => intro
          | u : unit |- _ => destruct u
          | |- context [match ?x with _ => _ end] => destruct x
          | |- context [if ?x then _ else _] => destruct x
          end).

Lemma try_block_ends base :
  ends_in (fun c => c = Normal tt \/ c = Returned RetNone)
    (try_except (generate_model_try base)
       (fun e => exec (Report ERROR ("Error: " ++ e)))).
Proof.
  unfold generate_model_try, post_request.
  crunch; auto.
Qed.

(** C2. Guaranteed cleanup.  Whatever the oracles answer (success, a
    non-200 status, an exception raised by the file system, the service or
    the temporary file), [generate_model] returns [None] without letting
    an exception escape, and it ends with [task_finished] set, the busy
    flag [is_processing] cleared and [selected_mesh_base64] emptied: the
    [finally] block runs on every exit path. *)
Theorem generate_model_cleanup env w :
  let out := run env (call generate_model) w in
  fst out = Ok RetNone
  /\ Op.task_finished (self (snd out)) = true
  /\ Props.is_processing (props (snd out)) = false
  /\ Op.selected_mesh_base64 (self (snd out)) = "".
Proof.
  intros out. subst out. rewrite run_generate_model.
  pose proof (run_ends_in env _ _ (record (EvReport INFO "Generation Start") w)
                (try_block_ends (rstrip_sep (Op.api_url (self w))))) as H.
  destruct (run env (try_except _ _) _) as [c w1].
  rewrite run_generate_model_finally. simpl in *.
  repeat split.
  destruct H as [-> | ->]; reflexivity.
Qed.

(** C7. Missing image.  When the mesh-and-texture branch does not apply
    and [image_path] is non-empty but does not exist, the worker sends no
    request: it reports the error, raises, the handler reports
    [Error: Image path does not exist ...], and the job ends finished
    with the busy flag cleared and no handoff registered. *)
Theorem missing_image_fails env w :
  truthy (Op.selected_mesh_base64 (self w)) && Op.texture (self w) = false ->
  Op.image_path (self w) <> "" ->
  os_path_exists env (Op.image_path (self w)) = false ->
  let out := run env (call generate_model) w in
  let msg := ("Image path does not exist " ++ Op.image_path (self w))%string in
  fst out = Ok RetNone
  /\ log (snd out) =
     log w ++ [ EvReport INFO "Generation Start";
                EvExists (Op.image_path (self w));
                EvReport ERROR msg;
                EvReport ERROR ("Error: " ++ msg)%string;
                EvAssign (self_task_finished true);
                EvAssign (props_is_processing false);
                EvAssign (self_selected_mesh_base64 "") ]
  /\ timers (snd out) = timers w
  /\ job_state_of (snd out) = Finished
  /\ Props.is_processing (props (snd out)) = false.
Proof.
  intros Hmesh Himg Hex out msg. subst out.
  rewrite run_generate_model.
  unfold try_except, generate_model_try, post_request.
  assert (Ht : truthy (Op.image_path (self w)) = true).
  { unfold truthy. destruct (String.eqb_spec (Op.image_path (self w)) ""); [contradiction | reflexivity]. }
  cbn. rewrite Hmesh. cbn. rewrite Ht. cbn. rewrite Hex. cbn.
  rewrite <- !app_assoc. simpl. auto.
Qed.

Lemma run_try_block env base w resp w1 :
  run env (post_request base) w = (Normal resp, w1) ->
  run env (try_except (generate_model_try base)
                      (fun e => exec (Report ERROR ("Error: " ++ e)))) w =
  let w2 := record (EvAssign (props_is_processing false))
              (apply_assign (props_is_processing false)
                 (record (EvAssign (self_task_finished true))
                    (apply_assign (self_task_finished true)
                       (record (EvReport INFO "Post Done") w1)))) in
  if negb (Z.eqb (status_code resp) 200) then
    (Returned RetNone,
     record (EvReport ERROR ("Generation failed: " ++ text resp)) w2)
  else
    match tempfile_name env (temp_count w2) with
    | Err e => (Normal tt, record (EvReport ERROR ("Error: " ++ e)) w2)
    | Ok name =>
        let w3 := record (EvWrite name (content resp))
                    (record (EvTempFile name)
                       (with_temp_count (S (temp_count w2)) w2)) in
        match write_file env name (content resp) with
        | Err e => (Normal tt, record (EvReport ERROR ("Error: " ++ e)) w3)
        | Ok _ =>
            (Normal tt,
             record (EvTimerRegister name)
               (with_timers (timers w3 ++ [name]) w3))
        end
    end.
Proof.
  intros H. unfold try_except, generate_model_try.
  rewrite run_bind, run_pbind, H.
  cbv beta iota.
  destruct (negb (status_code resp =? 200)%Z) eqn:Hs.
  - reflexivity.
  - cbn.
    destruct (tempfile_name env (temp_count w1)) as [name | e]; cbn; [|reflexivity].
    destruct (write_file env name (content resp)) as [[] | e]; reflexivity.
Qed.

(** C6 (amended).  The worker compares the status with 200, not with the
    2xx range.  For every response whose status is not 200 it reports
    [Generation failed: ] followed by the body text, returns, registers no
    handoff, and ends finished with the busy flag cleared.  A response
    with status 200 never takes that branch; when the temporary file can
    be made and written, the handoff is registered with the response
    content. *)
Theorem non_200_response_fails env w resp w1 :
  run env (post_request (rstrip_sep (Op.api_url (self w))))
      (record (EvReport INFO "Generation Start") w) = (Normal resp, w1) ->
  let out := run env (call generate_model) w in
  (status_code resp <> 200%Z ->
     fst out = Ok RetNone
     /\ log (snd out) =
        log w1 ++ [ EvReport INFO "Post Done";
                    EvAssign (self_task_finished true);
                    EvAssign (props_is_processing false);
                    EvReport ERROR ("Generation failed: " ++ text resp)%string;
                    EvAssign (self_task_finished true);
                    EvAssign (props_is_processing false);
                    EvAssign (self_selected_mesh_base64 "") ]
     /\ timers (snd out) = timers w1
     /\ job_state_of (snd out) = Finished
     /\ Props.is_processing (props (snd out)) = false)
  /\ (status_code resp = 200%Z ->
      exists new,
        log (snd out) = log w1 ++ new
        /\ (forall msg,
              ~ In (EvReport ERROR ("Generation failed: " ++ msg)%string) new)
        /\ (forall name,
              tempfile_name env (temp_count w1) = Ok name ->
              write_file env name (content resp) = Ok tt ->
              timers (snd out) = timers w1 ++ [name]
              /\ In (EvWrite name (content resp)) new)).
Proof.
  intros H out. subst out. rewrite run_generate_model.
  rewrite (run_try_block _ _ _ _ _ H). cbv zeta.
  split; intros Hs.
  - apply Z.eqb_neq in Hs. rewrite Hs. cbn.
    rewrite <- !app_assoc. simpl. auto.
  - apply Z.eqb_eq in Hs. rewrite Hs. cbn.
    destruct (tempfile_name env (temp_count w1)) as [name | e] eqn:Et; cbn;
      [destruct (write_file env name (content resp)) as [[] | e'] eqn:Ew;
       cbn |];
      rewrite <- !app_assoc; simpl; eexists; (split; [reflexivity |]);
      (split;
       [ intros msg Hin; simpl in Hin;
         repeat (destruct Hin as [Hin | Hin]; [discriminate Hin |]);
         exact Hin
       | intros name' Hn Hw;
         first [ discriminate Hn
               | injection Hn as <-; rewrite ?Ew in Hw;
                 first [ discriminate Hw
                       | split; [reflexivity | simpl; auto 10] ] ] ]).
Qed.

(** ** The request builder *)

Lemma new_events_app w w' new :
  log w' = log w ++ new -> new_events w w' = new.
Proof.
  intros H. unfold new_events. rewrite H.
  rewrite skipn_app, Nat.sub_diag, skipn_all. reflexivity.
Qed.

(** C5 (amended).  The builder either fails without sending anything or
    sends exactly one body, the one the precedence picks.  It fails when
    the mesh-and-texture branch does not apply and [image_path] is
    non-empty but missing, and when reading an existing image raises;
    otherwise the body is mesh+image, mesh+text, image or text, each
    followed by the four parameter keys and nothing else. *)
Theorem request_shape env base w :
  let s := self w in
  let path := Op.image_path s in
  let mesh_texture := truthy (Op.selected_mesh_base64 s) && Op.texture s in
  let image_exists := truthy path && os_path_exists env path in
  let out := run env (post_request base) w in
  let sent := posted (new_events w (snd out)) in
  if negb mesh_texture && truthy path && negb (os_path_exists env path) then
    fst out = Raised ("Image path does not exist " ++ path) /\ sent = []
  else if image_exists then
    match read_file env path with
    | Ok data => sent = [spec_payload s true (b64encode data)]
    | Err e => fst out = Raised e /\ sent = []
    end
  else sent = [spec_payload s false ""].
Proof.
  intros s path mesh_texture image_exists out sent.
  subst s path mesh_texture image_exists out sent.
  unfold post_request, spec_payload.
  destruct (truthy (Op.selected_mesh_base64 (self w)) && Op.texture (self w)) eqn:Hm;
  destruct (truthy (Op.image_path (self w))) eqn:Ht;
  destruct (os_path_exists env (Op.image_path (self w))) eqn:Hx;
  destruct (read_file env (Op.image_path (self w))) as [data | e] eqn:Hr;
  repeat progress (cbn; rewrite ?Hm, ?Ht, ?Hx, ?Hr).
  all: try match goal with
       | |- context [requests_post ?e ?u ?b] => destruct (requests_post e u b)
       end; cbn.
  all: repeat split; try reflexivity.
  all: (erewrite new_events_app;
        [| cbn; rewrite <- ?app_assoc; simpl; reflexivity]); reflexivity.
Qed.

(** The four key sets, one per shape; no other key ever appears. *)
Lemma spec_payload_keys s image_exists img_b64 :
  keys (spec_payload s image_exists img_b64) =
  (if truthy (Op.selected_mesh_base64 s) && Op.texture s
   then ["mesh"; if image_exists then "image" else "text"]
   else [if image_exists then "image" else "text"])
  ++ ["octree_resolution"; "num_inference_steps"; "guidance_scale";
      "texture"].
Proof.
  unfold spec_payload, keys.
  destruct (truthy (Op.selected_mesh_base64 s) && Op.texture s);
    destruct image_exists; reflexivity.
Qed.

(** ** The timer callback *)

Lemma run_import_handler_skip env temp_name w sc1 :
  import_gltf env temp_name (scene w) = Ok sc1 ->
  os_unlink env temp_name = Ok tt ->
  selected_objects sc1 = [] \/ Op.selected_mesh (self w) = None
  \/ Op.texture (self w) = false ->
  run env (call (import_handler temp_name)) w =
  (Ok RetNone,
   record (EvUnlink temp_name) (record (EvImport temp_name) (with_scene sc1 w))).
Proof.
  intros Himp Hunl Hskip.
  unfold import_handler.
  cbn -[lookup insert]. rewrite Himp. cbn -[lookup insert]. rewrite Hunl.
  cbn -[lookup insert].
  destruct (selected_objects sc1) as [| new rest] eqn:Hsel; cbn -[lookup insert].
  - destruct (Op.selected_mesh (self w)); reflexivity.
  - rewrite Hsel. cbn -[lookup insert].
    destruct Hskip as [H | [H | H]]; [discriminate H | rewrite H | rewrite H].
    + reflexivity.
    + destruct (Op.selected_mesh (self w)); reflexivity.
Qed.

(** C10. Handoff edge cases.  Once the asset is imported and the
    temporary file removed, if nothing is selected, or no source mesh was
    captured, or texture was not requested, the handler raises nothing
    (in particular no index error), leaves the scene exactly as the
    import left it, and returns [None]; the host therefore drops the
    timer after this one run. *)
Theorem import_handler_skips env temp_name w sc1 :
  import_gltf env temp_name (scene w) = Ok sc1 ->
  os_unlink env temp_name = Ok tt ->
  selected_objects sc1 = [] \/ Op.selected_mesh (self w) = None
  \/ Op.texture (self w) = false ->
  run env (call (import_handler temp_name)) w =
    (Ok RetNone,
     record (EvUnlink temp_name)
       (record (EvImport temp_name) (with_scene sc1 w)))
  /\ forall rest wk m,
       timers w = temp_name :: rest ->
       let c := step env (mkConfig w wk m) HostTimer in
       timers (world c) = rest /\ scene (world c) = sc1.
Proof.
  intros Himp Hunl Hskip. split.
  - apply run_import_handler_skip; assumption.
  - intros rest wk m Htm. unfold step. cbn [world worker modal_on].
    rewrite Htm.
    rewrite (run_import_handler_skip env temp_name (with_timers rest w) sc1);
      auto.
Qed.

(** C8 (amended).  Non-destructive replace, when the host reports a
    selected object after the import.  With a captured source mesh that
    still exists and texture requested, the handler copies the source's
    location, rotation and scale onto the first selected object, sets the
    source hidden in viewport and in render, changes nothing else of the
    source, removes no object and leaves every other object as the import
    left it. *)
Theorem import_handler_replaces env temp_name w sc1 new rest mesh src tgt :
  import_gltf env temp_name (scene w) = Ok sc1 ->
  os_unlink env temp_name = Ok tt ->
  selected_objects sc1 = new :: rest ->
  Op.selected_mesh (self w) = Some mesh ->
  Op.texture (self w) = true ->
  objects sc1 !! mesh = Some src ->
  objects sc1 !! new = Some tgt ->
  let out := run env (call (import_handler temp_name)) w in
  let objs := objects (scene (snd out)) in
  fst out = Ok RetNone
  /\ (exists tgt', objs !! new = Some tgt'
        /\ Obj.location tgt' = Obj.location src
        /\ Obj.rotation_euler tgt' = Obj.rotation_euler src
        /\ Obj.scale tgt' = Obj.scale src)
  /\ objs !! mesh = Some (ObjSet.hide_render true (ObjSet.hide_get true src))
  /\ (forall o, o <> new -> o <> mesh -> objs !! o = objects sc1 !! o)
  /\ selected_objects (scene (snd out)) = selected_objects sc1.
Proof.
  intros Himp Hunl Hsel Hmesh Htex Hsrc Htgt out objs. subst objs out.
  destruct (decide (new = mesh)) as [-> | Hne].
  - assert (tgt = src) by congruence. subst tgt.
    eassert (Hrun : run env (call (import_handler temp_name)) w = _).
    { unfold import_handler.
      repeat progress
        (cbn -[lookup insert];
         rewrite ?Himp, ?Hunl, ?Hsel, ?Hmesh, ?Htex, ?Hsrc, ?lookup_insert_eq).
      reflexivity. }
    rewrite Hrun. cbn -[lookup insert].
    split; [reflexivity |]. split; [| split; [| split]].
    + eexists. split; [apply lookup_insert_eq |]. cbn. auto.
    + rewrite lookup_insert_eq. destruct src; reflexivity.
    + intros o Ho _. rewrite !lookup_insert_ne by congruence. reflexivity.
    + symmetry. exact Hsel.
  - eassert (Hrun : run env (call (import_handler temp_name)) w = _).
    { unfold import_handler.
      repeat progress
        (cbn -[lookup insert];
         rewrite ?Himp, ?Hunl, ?Hsel, ?Hmesh, ?Htex, ?Hsrc, ?Htgt,
           ?lookup_insert_eq, ?lookup_insert_ne by congruence).
      reflexivity. }
    rewrite Hrun. cbn -[lookup insert].
    split; [reflexivity |]. split; [| split; [| split]].
    + eexists. split.
      * rewrite !lookup_insert_ne by congruence. apply lookup_insert_eq.
      * cbn. auto.
    + rewrite lookup_insert_eq. reflexivity.
    + intros o Ho Ho'. rewrite !lookup_insert_ne by congruence. reflexivity.
    + symmetry. exact Hsel.
Qed.

(** ** The operator's [invoke] *)

Lemma world_eq (a b : World) :
  props a = props b -> self a = self b -> scene a = scene b ->
  timers a = timers b -> temp_count a = temp_count b -> log a = log b ->
  a = b.
Proof. destruct a, b; simpl; intros; subst; reflexivity. Qed.

Lemma run_snapshot_props env w :
  run env snapshot_props w = (Normal tt, snapshot_world w).
Proof.
  unfold snapshot_props. cbn. f_equal.
  apply world_eq; cbn; try reflexivity.
  rewrite <- !app_assoc. reflexivity.
Qed.

Lemma run_first_mesh env l w :
  run env (first_mesh l) w =
  match find_mesh (objects (scene w)) l with
  | Ok None => (Normal tt, w)
  | Ok (Some o) =>
      (Normal tt,
       record (EvAssign (self_selected_mesh o))
              (apply_assign (self_selected_mesh o) w))
  | Err e => (Raised e, w)
  end.
Proof.
  induction l as [| o r IH]; [reflexivity |].
  cbn -[lookup]. destruct (objects (scene w) !! o) as [ob |]; cbn -[lookup];
    [| reflexivity].
  destruct (String.eqb (Obj.type ob) "MESH"); [reflexivity | apply IH].
Qed.

Lemma run_invoke env w :
  run env (call invoke) w =
  let w1 := snapshot_world w in
  if String.eqb (Props.prompt (props w)) ""
     && String.eqb (Props.image_path (props w)) ""
  then (Ok FINISHED, record (EvReport WARNING warn_no_input) w1)
  else
    let '(c, w2) := run env capture_mesh w1 in
    match c with
    | Normal _ => run env (call start_job) w2
    | Returned r => (Ok r, w2)
    | Raised e => (Err e, w2)
    end.
Proof.
  rewrite run_call. unfold invoke.
  rewrite run_pbind, run_snapshot_props. cbv beta iota zeta.
  rewrite run_pbind. simpl run at 1. cbv beta iota.
  change (Op.prompt (self (snapshot_world w))) with (Props.prompt (props w)).
  change (Op.image_path (self (snapshot_world w)))
    with (Props.image_path (props w)).
  destruct (_ && _).
  - reflexivity.
  - rewrite run_pbind. destruct (run env capture_mesh (snapshot_world w)) as [[u | r | e] w2];
      [| reflexivity | reflexivity].
    rewrite run_call. reflexivity.
Qed.

Lemma same_but_flags_inv w1 w2 :
  same_but_flags w1 w2 -> exists b t, w1 = set_job_flags b t w2.
Proof.
  unfold same_but_flags, set_job_flags, with_self, with_props.
  destruct w1 as [[] [] ? ? ? ?], w2 as [[] [] ? ? ? ?]; cbn.
  intros H. injection H as <-. subst.
  eexists _, _. reflexivity.
Qed.

Ltac flags_eq := unfold same_but_flags; apply world_eq; cbn; reflexivity.

Lemma capture_mesh_flags env b t w :
  fst (run env capture_mesh (set_job_flags b t w)) = fst (run env capture_mesh w)
  /\ same_but_flags (snd (run env capture_mesh (set_job_flags b t w)))
                    (snd (run env capture_mesh w)).
Proof.
  unfold capture_mesh.
  rewrite !run_pbind. simpl run at 1 3 5 7. cbv beta iota.
  rewrite !run_pbind, !run_first_mesh.
  change (scene (set_job_flags b t w)) with (scene w).
  destruct (find_mesh (objects (scene w)) (selected_objects (scene w)))
    as [[o |] | e]; cbv beta iota.
  - cbn. 
    destruct (tempfile_name env (temp_count w)) as [name | e]; cbn;
      [| split; [reflexivity | flags_eq]].
    destruct (export_gltf env name (scene w)) as [[] | e]; cbn;
      [| split; [reflexivity | flags_eq]].
    destruct (read_file env name) as [data | e]; cbn;
      [| split; [reflexivity | flags_eq]].
    destruct (os_unlink env name) as [[] | e]; cbn;
      split; (reflexivity || flags_eq).
  - unfold has_mesh. cbn. destruct (Op.selected_mesh (self w)); cbn; [| split; [reflexivity | flags_eq]].
    destruct (tempfile_name env (temp_count w)) as [name | e]; cbn;
      [| split; [reflexivity | flags_eq]].
    destruct (export_gltf env name (scene w)) as [[] | e]; cbn;
      [| split; [reflexivity | flags_eq]].
    destruct (read_file env name) as [data | e]; cbn;
      [| split; [reflexivity | flags_eq]].
    destruct (os_unlink env name) as [[] | e]; cbn;
      split; (reflexivity || flags_eq).
  - cbn. split; [reflexivity | flags_eq].
Qed.

Lemma capture_mesh_frame env w :
  let out := run env capture_mesh w in
  (forall r, fst out <> Returned r)
  /\ props (snd out) = props w
  /\ Op.prompt (self (snd out)) = Op.prompt (self w)
  /\ Op.image_path (self (snd out)) = Op.image_path (self w)
  /\ Op.texture (self (snd out)) = Op.texture (self w)
  /\ timers (snd out) = timers w
  /\ scene (snd out) = scene w
  /\ existsb is_thread_start (new_events w (snd out)) = false.
Proof.
  assert (Hnew : forall w' new, log w' = log w ++ new ->
            existsb is_thread_start new = false ->
            existsb is_thread_start (new_events w w') = false).
  { intros w' new H1 H2. rewrite (new_events_app _ _ _ H1). exact H2. }
  cbv zeta.
  destruct (run env capture_mesh w) as [c w'] eqn:Hrun.
  unfold capture_mesh in Hrun.
  rewrite run_pbind in Hrun. simpl run at 1 in Hrun. cbv beta iota in Hrun.
  rewrite run_pbind, run_first_mesh in Hrun.
  destruct (find_mesh (objects (scene w)) (selected_objects (scene w)))
    as [[o |] | e]; cbv beta iota in Hrun; unfold has_mesh in Hrun;
    cbn in Hrun.
  2: destruct (Op.selected_mesh (self w)); cbn in Hrun.
  1, 2: destruct (tempfile_name env (temp_count w)) as [name | e];
    cbn in Hrun;
    [destruct (export_gltf env name (scene w)) as [[] | e]; cbn in Hrun;
     [destruct (read_file env name) as [data | e]; cbn in Hrun;
      [destruct (os_unlink env name) as [[] | e]; cbn in Hrun |] |] |].
  all: injection Hrun as <- <-; cbn.
  all: repeat split; try discriminate; try reflexivity.
  all: eapply Hnew; [cbn; rewrite <- ?app_assoc; simpl;
                     first [reflexivity | symmetry; apply app_nil_r]
                    | reflexivity].
Qed.

Lemma run_start_job env w :
  let out := run env (call start_job) w in
  let blend_file_dir := os_path.dirname (bpy_data_filepath env) in
  let path := resolved_path (bpy_data_filepath env) (Op.image_path (self w)) in
  fst out = Ok RUNNING_MODAL
  /\ Op.image_path (self (snd out)) = path
  /\ Props.is_processing (props (snd out)) = true
  /\ Props.status_message (props (snd out)) =
     status_text (OpSet.image_path path (self w))
  /\ existsb is_thread_start (new_events w (snd out)) = true
  /\ timers (snd out) = timers w.
Proof.
  cbv zeta. unfold start_job, resolve_image_path, launch, resolved_path.
  destruct (startswith (Op.image_path (self w)) "//") eqn:Hp;
    repeat progress (cbn; rewrite ?Hp).
  all: repeat split.
  all: erewrite new_events_app;
    [| cbn; rewrite <- !app_assoc; simpl; reflexivity]; reflexivity.
Qed.

Lemma start_job_flags env b t w :
  fst (run env (call start_job) (set_job_flags b t w)) =
  fst (run env (call start_job) w)
  /\ same_but_flags (snd (run env (call start_job) (set_job_flags b t w)))
                    (snd (run env (call start_job) w)).
Proof.
  unfold start_job, resolve_image_path, launch, startswith.
  destruct (String.prefix "//" (Op.image_path (self w))) eqn:Hp;
    repeat progress (cbn; rewrite ?Hp).
  all: split; [reflexivity | flags_eq].
Qed.

(** C3 (amended).  [invoke] rejects the submission, with a warning and
    before anything else happens (no export, no busy flag, no thread), if
    and only if the prompt and the image path are both empty; whether a
    mesh is selected plays no part, since the guard runs before the
    selection is looked at. *)
Theorem invoke_rejects_iff env w :
  let out := run env (call invoke) w in
  (fst out = Ok FINISHED <->
   Props.prompt (props w) = "" /\ Props.image_path (props w) = "")
  /\ (fst out = Ok FINISHED ->
      snd out = record (EvReport WARNING warn_no_input) (snapshot_world w)
      /\ props (snd out) = props w
      /\ existsb is_thread_start (new_events w (snd out)) = false).
Proof.
  cbv zeta. rewrite run_invoke. cbv zeta.
  destruct (String.eqb_spec (Props.prompt (props w)) "") as [Hp | Hp];
  destruct (String.eqb_spec (Props.image_path (props w)) "") as [Hi | Hi];
    cbn [andb].
  1: { split; [split; auto |]. intros _. cbn. repeat split.
       erewrite new_events_app;
         [| cbn; rewrite <- !app_assoc; simpl; reflexivity]. reflexivity. }
  all: pose proof (capture_mesh_frame env (snapshot_world w)) as Hf;
    cbv zeta in Hf;
    destruct (run env capture_mesh (snapshot_world w)) as [[u | r | e] w2];
    cbn [fst snd] in Hf; destruct Hf as [Hr _];
    [ pose proof (run_start_job env w2) as Hs; cbv zeta in Hs;
      destruct Hs as [Hs _]
    | exfalso; exact (Hr r eq_refl)
    | ].
  all: split; [split |]; cbn [fst snd]; try rewrite Hs; try discriminate;
    intros []; congruence.
Qed.


Lemma isabs_app a b : os_path.isabs a = true -> os_path.isabs (a ++ b) = true.
Proof.
  unfold os_path.isabs, startswith.
  destruct a as [| c r]; [intros H; inversion H |].
  change (String.prefix "/" (String c r))
    with (if ascii_dec "/" c then String.prefix "" r else false).
  change (String.prefix "/" (String c r ++ b))
    with (if ascii_dec "/" c then String.prefix "" (r ++ b) else false).
  destruct (ascii_dec "/" c); [| intros H; inversion H].
  intros _. destruct r; destruct b; reflexivity.
Qed.

Lemma isabs_join a b :
  os_path.isabs a = true -> os_path.isabs (os_path.join a b) = true.
Proof.
  intros Ha. unfold os_path.join.
  destruct (startswith b "/") eqn:Hb; [exact Hb |].
  destruct (negb (truthy a) || ends_with_sep a); apply isabs_app; exact Ha.
Qed.

(** C9 (amended).  Only a path that starts with [//] is rewritten: the
    prefix is dropped and the rest joined onto the directory of the blend
    file; any other path is used as typed.  The result is absolute when
    the path starts with [//] and that directory is absolute. *)
Theorem image_path_resolution env w :
  let out := run env (call invoke) w in
  let p := Props.image_path (props w) in
  let blend_file_dir := os_path.dirname (bpy_data_filepath env) in
  fst out = Ok RUNNING_MODAL ->
  Op.image_path (self (snd out)) =
    (if startswith p "//" then os_path.join blend_file_dir (drop_chars 2 p)
     else p)
  /\ (startswith p "//" = true -> os_path.isabs blend_file_dir = true ->
      os_path.isabs (Op.image_path (self (snd out))) = true).
Proof.
  cbv zeta. rewrite run_invoke. cbv zeta.
  destruct (_ && _); [discriminate |].
  pose proof (capture_mesh_frame env (snapshot_world w)) as Hf.
  cbv zeta in Hf.
  destruct (run env capture_mesh (snapshot_world w)) as [[u | r | e] w2];
    cbn [fst snd] in *; [| intros; exfalso; apply (proj1 Hf r); reflexivity
                         | discriminate].
  destruct Hf as (_ & _ & _ & Hpath & _).
  pose proof (run_start_job env w2) as Hs. cbv zeta in Hs.
  destruct Hs as (_ & Hs & _). intros _.
  rewrite Hs, Hpath. unfold resolved_path. cbn [self snapshot_world snapshot_self Op.image_path].
  split; [reflexivity |].
  intros Hp Habs. rewrite Hp. apply isabs_join, Habs.
Qed.

(** C1 (amended).  [invoke] has no AlreadyRunning check: started in two
    worlds that differ only in the job flags [is_processing] and
    [task_finished], it returns the same value, logs the same effects
    (thread start included) and ends in worlds that again differ only in
    those flags.  A second submission is held back by the panel alone,
    whose operator row is enabled exactly when [is_processing] is false. *)
Theorem invoke_ignores_job_state env w1 w2 :
  same_but_flags w1 w2 ->
  let out1 := run env (call invoke) w1 in
  let out2 := run env (call invoke) w2 in
  fst out1 = fst out2
  /\ same_but_flags (snd out1) (snd out2)
  /\ log (snd out1) = log (snd out2)
  /\ draw_row_enabled (props w1) = negb (Props.is_processing (props w1)).
Proof.
  intros H. apply same_but_flags_inv in H as (b & t & ->).
  cbv zeta. rewrite !run_invoke. cbv zeta.
  change (Props.prompt (props (set_job_flags b t w2)))
    with (Props.prompt (props w2)).
  change (Props.image_path (props (set_job_flags b t w2)))
    with (Props.image_path (props w2)).
  assert (Hlog : forall a c, same_but_flags a c -> log a = log c).
  { intros a c Hac. unfold same_but_flags in Hac.
    apply (f_equal log) in Hac. exact Hac. }
  assert (Hsnap : snapshot_world (set_job_flags b t w2) =
                  set_job_flags b t (snapshot_world w2)).
  { apply world_eq; reflexivity. }
  destruct (_ && _).
  - cbn [fst snd]. rewrite Hsnap.
    assert (same_but_flags
              (record (EvReport WARNING warn_no_input)
                 (set_job_flags b t (snapshot_world w2)))
              (record (EvReport WARNING warn_no_input) (snapshot_world w2)))
      by flags_eq.
    repeat split; auto.
  - rewrite Hsnap.
    pose proof (capture_mesh_flags env b t (snapshot_world w2)) as [Hc1 Hc2].
    destruct (run env capture_mesh (set_job_flags b t (snapshot_world w2)))
      as [c1 wa].
    destruct (run env capture_mesh (snapshot_world w2)) as [c2 wb].
    cbn [fst snd] in Hc1, Hc2. subst c2.
    destruct c1 as [u | r | e]; cbn [fst snd]; [| repeat split; auto ..].
    apply same_but_flags_inv in Hc2 as (b' & t' & ->).
    pose proof (start_job_flags env b' t' wb) as [Hs1 Hs2].
    repeat split; auto.
Qed.

(** ** Interleaved executions *)

Lemma handoff_after_terminal_app s l l' :
  handoff_after_terminal_from s (l ++ l') =
  handoff_after_terminal_from s l
  && handoff_after_terminal_from (s || existsb is_terminal_write l) l'.
Proof.
  revert s. induction l as [| e l IH]; intros s; simpl.
  - rewrite orb_false_r. reflexivity.
  - rewrite IH, orb_assoc, andb_assoc. reflexivity.
Qed.

Lemma guarded_mono {A : Type} (p : prog A) s s' :
  (s = true -> s' = true) -> guarded s p -> guarded s' p.
Proof.
  revert s s'. induction p as [a | X c k IH]; intros s s' Hs; simpl; [auto |].
  intros [H1 H2]. split; [auto |].
  intros x. apply (IH x (s || cmd_is_terminal c)); [| apply H2].
  destruct s; simpl; [intros _; rewrite Hs; reflexivity |].
  intros ->. apply orb_true_r.
Qed.

Lemma guarded_true {A : Type} (p : prog A) : guarded true p.
Proof.
  induction p as [a | X c k IH]; simpl; [exact I |].
  split; [reflexivity | intros x; apply IH].
Qed.

Lemma guarded_bind {A B : Type} (p : prog A) (f : A -> prog B) s :
  guarded s p -> (forall a, guarded s (f a)) -> guarded s (bind p f).
Proof.
  revert s. induction p as [a | X c k IH]; intros s; simpl; [auto |].
  intros [H1 H2] Hf. split; [exact H1 |].
  intros x. apply IH; [apply H2 |].
  intros a. apply (guarded_mono _ s); [| apply Hf].
  intros ->. reflexivity.
Qed.

Lemma guarded_pbind {A B : Type} (p : py A) (f : A -> py B) s :
  guarded s p -> (forall a, guarded s (f a)) -> guarded s (pbind p f).
Proof.
  intros Hp Hf. unfold pbind. apply guarded_bind; [exact Hp |].
  intros [a | r | e]; [apply Hf | exact I | exact I].
Qed.

Lemma guarded_call (body : py unit) s : guarded s body -> guarded s (call body).
Proof.
  intros H. unfold call. apply guarded_bind; [exact H |].
  intros [a | r | e]; exact I.
Qed.

Lemma exec_cmd_ok env {X : Type} (c : cmd X) w :
  (cmd_is_handoff c = true -> terminal_written w = true) ->
  handoff_after_terminal (log w) = true ->
  (timers w <> [] -> terminal_written w = true) ->
  let w' := snd (exec_cmd env c w) in
  handoff_after_terminal (log w') = true
  /\ (timers w' <> [] -> terminal_written w' = true)
  /\ terminal_written w' = terminal_written w || cmd_is_terminal c.
Proof.
  unfold terminal_written, handoff_after_terminal.
  intros Hc Hl Ht.
  destruct c; cbn -[lookup insert] in *;
    repeat match goal with
      | |- context [match ?x with _ => _ end] => destruct x
      end;
    cbn -[lookup insert] in *;
    rewrite ?handoff_after_terminal_app, ?existsb_app, ?Hl, ?orb_false_r;
    cbn; rewrite ?orb_false_r; auto.
  all: try (specialize (Hc eq_refl); rewrite Hc).
  all: repeat split; intros; rewrite ?orb_true_r; auto.
Qed.

Lemma run_ok env {A : Type} (p : prog A) w :
  guarded (terminal_written w) p ->
  handoff_after_terminal (log w) = true ->
  (timers w <> [] -> terminal_written w = true) ->
  let w' := snd (run env p w) in
  handoff_after_terminal (log w') = true
  /\ (timers w' <> [] -> terminal_written w' = true)
  /\ (terminal_written w = true -> terminal_written w' = true).
Proof.
  revert w. induction p as [a | X c k IH]; intros w Hg Hl Ht; simpl.
  - auto.
  - destruct Hg as [Hc Hk].
    pose proof (exec_cmd_ok env c w Hc Hl Ht) as (H1 & H2 & H3).
    destruct (exec_cmd env c w) as [x w1]. cbn [snd] in *.
    specialize (Hk x). rewrite <- H3 in Hk.
    destruct (IH x w1 Hk H1 H2) as (I1 & I2 & I3).
    repeat split; auto.
    intros Hw. apply I3. rewrite H3, Hw. reflexivity.
Qed.

Lemma guarded_first_mesh objs s : guarded s (first_mesh objs).
Proof.
  induction objs as [| o r IH]; simpl; [exact I |].
  split; [discriminate |]. intros [ob | e]; cbn; [| exact I].
  destruct (String.eqb (Obj.type ob) "MESH"); cbn.
  - split; [discriminate |]. intros _. exact I.
  - apply (guarded_mono _ s); [| exact IH]. rewrite orb_false_r. auto.
Qed.

Ltac guard_crunch :=
  repeat (cbn;
          match goal with
          | |- True => exact I
          | |- _ /\ _ => split
          | |- false = true -> _ => discriminate
          | |- true = true -> _ => reflexivity
          | |- forall _, _ => intro
          | |- context [match ?x with _ => _ end] => destruct x
          | |- context [if ?x then _ else _] => destruct x
          end).

Lemma guarded_invoke : guarded false (call invoke).
Proof.
  apply guarded_call. unfold invoke.
  apply guarded_pbind; [unfold snapshot_props; guard_crunch |].
  intros _. apply guarded_pbind; [guard_crunch |].
  intros s. destruct (_ && _); [guard_crunch |].
  apply guarded_pbind.
  - unfold capture_mesh. apply guarded_pbind; [guard_crunch |].
    intros objs. apply guarded_pbind; [apply guarded_first_mesh |].
    intros _. guard_crunch.
  - intros _. unfold start_job, resolve_image_path, launch. guard_crunch.
Qed.

Lemma guarded_modal event_type : guarded false (call (modal event_type)).
Proof. unfold modal. guard_crunch. Qed.

Lemma guarded_generate_model : guarded false (call generate_model).
Proof.
  unfold generate_model, generate_model_try, generate_model_finally,
    post_request.
  guard_crunch.
Qed.


Lemma step_ok env c t : config_ok c -> config_ok (step env c t).
Proof.
  unfold config_ok. intros (Hl & Ht & Hw).
  destruct t as [| event_type |]; unfold step.
  - destruct (worker c) as [[a | X cm k] |] eqn:Hwk;
      cbn [world worker modal_on]; rewrite ?Hwk; auto.
    destruct Hw as [Hc Hk].
    pose proof (exec_cmd_ok env cm (world c) Hc Hl Ht) as (H1 & H2 & H3).
    destruct (exec_cmd env cm (world c)) as [x w']. cbn [snd] in *.
    cbn [world worker modal_on]. repeat split; auto. rewrite H3. apply Hk.
  - destruct (modal_on c); [| auto].
    pose proof (run_ok env (call (modal event_type)) (world c)) as H.
    cbv zeta in H.
    destruct H as (H1 & H2 & H3); auto.
    { apply (guarded_mono _ false); [discriminate | apply guarded_modal]. }
    destruct (run env (call (modal event_type)) (world c)) as [r w'].
    cbn [snd] in *. cbn [world worker modal_on]. repeat split; auto.
    destruct (worker c) as [p |]; [| exact I].
    apply (guarded_mono _ (terminal_written (world c))); auto.
  - destruct (timers (world c)) as [| temp_name rest] eqn:Htm; [auto |].
    assert (Hseen : terminal_written (world c) = true).
    { apply Ht. discriminate. }
    pose proof (run_ok env (call (import_handler temp_name))
                  (with_timers rest (world c))) as H.
    cbv zeta in H.
    change (terminal_written (with_timers rest (world c)))
      with (terminal_written (world c)) in H.
    change (log (with_timers rest (world c))) with (log (world c)) in H.
    rewrite Hseen in H.
    destruct H as (H1 & H2 & H3); auto using guarded_true.
    destruct (run env (call (import_handler temp_name)) _) as [r w'].
    cbn [snd] in *. cbn [world worker modal_on]. repeat split; auto.
    destruct (worker c) as [p |]; [| exact I].
    rewrite H3 by reflexivity. apply guarded_true.
Qed.

Lemma start_ok env w :
  handoff_after_terminal (log w) = true -> timers w = [] ->
  config_ok (start env w).
Proof.
  intros Hl Ht. unfold start.
  assert (Hg0 : guarded (terminal_written w) (call invoke)).
  { apply (guarded_mono _ false); [discriminate | apply guarded_invoke]. }
  assert (Ht0 : timers w <> [] -> terminal_written w = true).
  { intros Hne. contradiction. }
  pose proof (run_ok env (call invoke) w Hg0 Hl Ht0) as (H1 & H2 & H3).
  destruct (run env (call invoke) w) as [r w']. cbn [snd] in *.
  assert (Hg : guarded (terminal_written w') (call generate_model)).
  { apply (guarded_mono _ false); [discriminate | apply guarded_generate_model]. }
  unfold config_ok.
  destruct r as [[] | e]; simpl; auto.
Qed.

(** C4 (amended).  In every interleaving of the worker with the host's
    events and timers, a handoff is registered, and run, only after the
    worker has written [task_finished := True]; nothing orders it with
    respect to the reset that [modal] performs. *)
Theorem handoff_follows_terminal_write env w sched :
  handoff_after_terminal (log w) = true ->
  timers w = [] ->
  handoff_after_terminal (log (world (execute env w sched))) = true.
Proof.
  intros Hl Ht. unfold execute.
  assert (H : config_ok (start env w)) by (apply start_ok; assumption).
  revert H. generalize (start env w).
  induction sched as [| t sched IH]; intros c Hc; simpl.
  - apply Hc.
  - apply IH, step_ok, Hc.
Qed.

(** ** Counterexamples and witnesses *)

(** C1, counterexample: with the busy flag up, [invoke] returns
    [RUNNING_MODAL] and starts another thread. *)
Lemma single_flight_counterexample : ~ spec_single_flight.
Proof.
  intros H.
  destruct (H env_ok (fresh_world props_busy scene_empty)) as [[e He] _].
  - vm_compute. discriminate.
  - vm_compute in He. discriminate He.
Qed.

(** C1, witness: the running job of [props_busy] against the same world
    with the flags down. *)
Lemma invoke_ignores_job_state_witness :
  same_but_flags (fresh_world props_busy scene_empty)
                 (set_job_flags false false (fresh_world props_busy scene_empty))
  /\ fst (run env_ok (call invoke) (fresh_world props_busy scene_empty)) =
     fst (run env_ok (call invoke)
            (set_job_flags false false (fresh_world props_busy scene_empty))).
Proof.
  split; [reflexivity |].
  exact (proj1 (invoke_ignores_job_state env_ok
                  (fresh_world props_busy scene_empty)
                  (set_job_flags false false
                     (fresh_world props_busy scene_empty))
                  eq_refl)).
Defined.

(** C3, counterexample: nothing typed but a mesh selected, and the
    submission is rejected all the same. *)
Lemma validation_counterexample : ~ spec_validation.
Proof.
  intros H.
  destruct (H env_ok (fresh_world props_mesh_only scene_chair)) as [H1 _].
  destruct H1 as (_ & _ & Hm); [reflexivity |].
  vm_compute in Hm. discriminate Hm.
Qed.

(** C3, witness: the rejected submission above. *)
Lemma invoke_rejects_iff_witness :
  fst (run env_ok (call invoke) (fresh_world props_mesh_only scene_chair)) =
    Ok FINISHED
  /\ existsb is_thread_start
       (new_events (fresh_world props_mesh_only scene_chair)
          (snd (run env_ok (call invoke)
                  (fresh_world props_mesh_only scene_chair)))) = false.
Proof.
  pose proof (invoke_rejects_iff env_ok
                (fresh_world props_mesh_only scene_chair)) as [H1 H2].
  assert (Hf : fst (run env_ok (call invoke)
                      (fresh_world props_mesh_only scene_chair)) = Ok FINISHED).
  { apply H1. split; reflexivity. }
  split; [exact Hf | apply (H2 Hf)].
Defined.

(** C4, counterexample: the host polls between lines 227 and 229. *)
Lemma worker_ordering_counterexample : ~ spec_worker_ordering.
Proof.
  intros H.
  specialize (H env_ok (fresh_world props_text scene_empty)
                schedule_early_poll eq_refl eq_refl).
  vm_compute in H. discriminate H.
Qed.

(** C4, witness: the same schedule. *)
Lemma handoff_follows_terminal_write_witness :
  handoff_after_terminal (log (fresh_world props_text scene_empty)) = true
  /\ timers (fresh_world props_text scene_empty) = []
  /\ handoff_after_terminal
       (log (world (execute env_ok (fresh_world props_text scene_empty)
                      schedule_early_poll))) = true.
Proof.
  split; [reflexivity |]. split; [reflexivity |].
  apply (handoff_follows_terminal_write env_ok
           (fresh_world props_text scene_empty) schedule_early_poll);
    reflexivity.
Defined.

(** C5, counterexample: an image path that does not exist and no mesh:
    nothing is sent, while the precedence asks for the text shape. *)
Lemma request_shape_counterexample : ~ spec_request_shape.
Proof.
  intros H.
  destruct (H env_ok "http://localhost:8080"
              (after_invoke env_ok (fresh_world props_missing_image scene_empty)))
    as [img Himg].
  vm_compute in Himg. discriminate Himg.
Qed.

(** C5, witness: the specification's text-only scenario. *)
Lemma request_shape_witness :
  posted
    (new_events (after_invoke env_ok (fresh_world props_text scene_empty))
       (snd (run env_ok (post_request "http://localhost:8080")
               (after_invoke env_ok (fresh_world props_text scene_empty))))) =
  [[ ("text", JStr "a red chair"); ("octree_resolution", JInt 256);
     ("num_inference_steps", JInt 20); ("guidance_scale", JFloat (11 # 2));
     ("texture", JBool false) ]].
Proof.
  exact (request_shape env_ok "http://localhost:8080"
           (after_invoke env_ok (fresh_world props_text scene_empty))).
Defined.

(** C6, counterexample: status 201 is in the 2xx range and is reported
    as a failure. *)
Lemma remote_failure_counterexample : ~ spec_remote_failure.
Proof.
  intros H.
  apply (H env_201 (after_invoke env_201 (fresh_world props_text scene_empty))
           (mkResponse 201 "Created" "GLB")
           (snd (run env_201 (post_request "http://localhost:8080")
                   (record (EvReport INFO "Generation Start")
                      (after_invoke env_201
                         (fresh_world props_text scene_empty)))))).
  - vm_compute. reflexivity.
  - reflexivity.
  - vm_compute. auto 30.
Qed.

(** C6, witness: the specification's HTTP 500 scenario with body OOM. *)
Lemma non_200_response_fails_witness :
  In (EvReport ERROR "Generation failed: OOM")
     (log (snd (run env_500 (call generate_model)
                  (after_invoke env_500 (fresh_world props_text scene_empty)))))
  /\ Props.is_processing
       (props (snd (run env_500 (call generate_model)
                      (after_invoke env_500
                         (fresh_world props_text scene_empty))))) = false.
Proof.
  pose proof (non_200_response_fails env_500
                (after_invoke env_500 (fresh_world props_text scene_empty))
                (mkResponse 500 "OOM" "OOM")
                (snd (run env_500 (post_request "http://localhost:8080")
                        (record (EvReport INFO "Generation Start")
                           (after_invoke env_500
                              (fresh_world props_text scene_empty)))))
                ltac:(vm_compute; reflexivity)) as [H _].
  assert (Hs : status_code (mkResponse 500 "OOM" "OOM") <> 200%Z)
    by discriminate.
  destruct (H Hs) as (_ & Hlog & _ & _ & Hbusy).
  split; [| exact Hbusy].
  rewrite Hlog. apply in_or_app. right. simpl. auto.
Defined.

(** C7, witness: [missing.png] is not on disk. *)
Lemma missing_image_fails_witness :
  posted (log (snd (run env_ok (call generate_model)
                      (after_invoke env_ok
                         (fresh_world props_missing_image scene_empty))))) = []
  /\ job_state_of
       (snd (run env_ok (call generate_model)
               (after_invoke env_ok
                  (fresh_world props_missing_image scene_empty)))) = Finished.
Proof.
  assert (Hne : Op.image_path
                  (self (after_invoke env_ok
                           (fresh_world props_missing_image scene_empty)))
                <> "").
  { vm_compute. discriminate. }
  destruct (missing_image_fails env_ok
              (after_invoke env_ok (fresh_world props_missing_image scene_empty))
              ltac:(vm_compute; reflexivity) Hne
              ltac:(vm_compute; reflexivity)) as (_ & Hlog & _ & Hstate & _).
  split; [| exact Hstate].
  rewrite Hlog. vm_compute. reflexivity.
Defined.

(** C8, counterexample: the import leaves nothing selected; the handoff
    completes and the source object is still visible. *)
Lemma mesh_replace_counterexample : ~ spec_mesh_replace.
Proof.
  intros H.
  destruct (H env_nothing_selected "/tmp/t.glb"
              (world (execute env_nothing_selected
                        (fresh_world props_mesh_texture scene_chair)
                        schedule_worker_only))
              1%nat chair_obj
              ltac:(vm_compute; reflexivity) ltac:(vm_compute; reflexivity)
              ltac:(vm_compute; reflexivity) ltac:(vm_compute; reflexivity))
    as (src' & Hsrc & Hhide & _).
  vm_compute in Hsrc. injection Hsrc as <-. discriminate Hhide.
Qed.

(** C8, witness: a mesh-replace submission whose import selects the new
    object 7. *)
Lemma import_handler_replaces_witness :
  objects (scene (snd (run env_ok (call (import_handler "/tmp/t.glb"))
                         (world (execute env_ok
                                   (fresh_world props_mesh_texture scene_chair)
                                   schedule_worker_only))))) !! 1%nat =
  Some (ObjSet.hide_render true (ObjSet.hide_get true chair_obj)).
Proof.
  exact (proj1 (proj2 (proj2
    (import_handler_replaces env_ok "/tmp/t.glb"
       (world (execute env_ok (fresh_world props_mesh_texture scene_chair)
                 schedule_worker_only))
       (scene_chair_imported [7%nat])
       7%nat [] 1%nat chair_obj imported_obj
       ltac:(vm_compute; reflexivity) ltac:(vm_compute; reflexivity)
       ltac:(vm_compute; reflexivity) ltac:(vm_compute; reflexivity)
       ltac:(vm_compute; reflexivity) ltac:(vm_compute; reflexivity)
       ltac:(vm_compute; reflexivity))))).
Defined.

(** C9, counterexample: [cat.png] stays relative. *)
Lemma image_path_absolute_counterexample : ~ spec_image_path_absolute.
Proof.
  intros H.
  specialize (H env_ok (fresh_world props_relative_image scene_empty)
                ltac:(vm_compute; reflexivity)).
  assert (Hne : Props.image_path
                  (props (fresh_world props_relative_image scene_empty)) <> "")
    by (vm_compute; discriminate).
  specialize (H Hne). vm_compute in H. discriminate H.
Qed.

(** C9, witness: a blend-relative path. *)
Lemma image_path_resolution_witness :
  Op.image_path
    (self (snd (run env_ok (call invoke)
                  (fresh_world props_blend_relative_image scene_empty)))) =
  "/home/u/tex/cat.png".
Proof.
  exact (proj1 (image_path_resolution env_ok
                  (fresh_world props_blend_relative_image scene_empty)
                  ltac:(vm_compute; reflexivity))).
Defined.

(** C10, witness: the import leaves nothing selected. *)
Lemma import_handler_skips_witness :
  fst (run env_nothing_selected (call (import_handler "/tmp/t.glb"))
         (world (execute env_nothing_selected
                   (fresh_world props_mesh_texture scene_chair)
                   schedule_worker_only))) = Ok RetNone.
Proof.
  destruct (import_handler_skips env_nothing_selected "/tmp/t.glb"
              (world (execute env_nothing_selected
                        (fresh_world props_mesh_texture scene_chair)
                        schedule_worker_only))
              (scene_chair_imported [])) as [H _].
  - vm_compute. reflexivity.
  - vm_compute. reflexivity.
  - left. reflexivity.
  - rewrite H. reflexivity.
Defined.

(** * Further properties of the code *)

(** ** Frames *)

Lemma all_cmds_bind P {A B : Type} (p : prog A) (f : A -> prog B) :
  all_cmds P p -> (forall a, all_cmds P (f a)) -> all_cmds P (bind p f).
Proof.
  induction p as [a | X c k IH]; simpl; [auto |].
  intros [Hc Hk] Hf. split; [exact Hc |]. intros x. apply IH; auto.
Qed.

Lemma all_cmds_pbind P {A B : Type} (p : py A) (f : A -> py B) :
  all_cmds P p -> (forall a, all_cmds P (f a)) -> all_cmds P (pbind p f).
Proof.
  intros Hp Hf. unfold pbind. apply all_cmds_bind; [exact Hp |].
  intros [a | r | e]; [apply Hf | exact I | exact I].
Qed.

Lemma all_cmds_call P (body : py unit) :
  all_cmds P body -> all_cmds P (call body).
Proof.
  intros H. unfold call. apply all_cmds_bind; [exact H |].
  intros [a | r | e]; exact I.
Qed.

(** A relation between the world before and after that every allowed
    command keeps is kept by the whole program. *)
Lemma run_all_cmds env P (R : World -> World -> Prop) {A : Type}
  (p : prog A) w0 w :
  (forall X (c : cmd X) w1, P X c = true -> R w0 w1 ->
     R w0 (snd (exec_cmd env c w1))) ->
  all_cmds P p -> R w0 w -> R w0 (snd (run env p w)).
Proof.
  intros Hstep. revert w. induction p as [a | X c k IH]; intros w Hp Hw;
    simpl.
  - exact Hw.
  - destruct Hp as [Hc Hk]. specialize (Hstep X c w Hc Hw).
    destruct (exec_cmd env c w) as [x w1]. apply IH; [apply Hk | exact Hstep].
Qed.

Ltac cmds_crunch :=
  repeat (cbn;
          match goal with
          | |- True => exact I
          | |- _ /\ _ => split
          | |- ?x = ?x => reflexivity
          | |- forall _, _ => intro
          | |- context [match ?x with _ => _ end] => destruct x
          | |- context [if ?x then _ else _] => destruct x
          end).

Lemma all_cmds_first_mesh objs : all_cmds (@cmd_is_local) (first_mesh objs).
Proof.
  induction objs as [| o r IH]; simpl; [exact I |].
  split; [reflexivity |]. intros [ob | e]; cbn; [| exact I].
  destruct (String.eqb (Obj.type ob) "MESH"); [cmds_crunch | exact IH].
Qed.

Lemma all_cmds_capture_mesh : all_cmds (@cmd_is_local) capture_mesh.
Proof.
  unfold capture_mesh. apply all_cmds_pbind; [cmds_crunch |].
  intros objs. apply all_cmds_pbind; [apply all_cmds_first_mesh |].
  intros _. cmds_crunch.
Qed.

Lemma exec_cmd_local env {X : Type} (c : cmd X) w0 w :
  cmd_is_local c = true -> local_frame w0 w ->
  local_frame w0 (snd (exec_cmd env c w)).
Proof.
  unfold local_frame.
  intros Hc (Hp & Hs & Ht & Hth & Hf & new & Hl & Hn).
  destruct c; try discriminate Hc; cbn -[lookup insert] in *;
    repeat match goal with
      | a : assign |- _ => destruct a; try discriminate Hc
      | |- context [match ?x with _ => _ end] => destruct x
      end;
    cbn -[lookup insert] in *;
    repeat split; auto;
    try (exists new; split; [assumption | assumption]);
    try (eexists; split;
         [rewrite Hl, <- app_assoc; reflexivity
         | rewrite forallb_app, Hn; reflexivity]).
Qed.

Lemma local_frame_refl w : local_frame w w.
Proof.
  unfold local_frame. repeat split; auto.
  exists []. split; [symmetry; apply app_nil_r | reflexivity].
Qed.

Lemma run_local env {A : Type} (p : prog A) w :
  all_cmds (@cmd_is_local) p -> local_frame w (snd (run env p w)).
Proof.
  intros Hp.
  apply (run_all_cmds env (@cmd_is_local) local_frame p w w);
    [| exact Hp | apply local_frame_refl].
  intros X c w1 Hc Hw. apply exec_cmd_local; assumption.
Qed.

(** ** [modal] *)

(** X1.  On an event other than RIGHTMOUSE and ESC, [modal] passes the
    event through and leaves [task_finished] down.  If the flag was up it
    prints once, clears the flag and then the busy property; if it was
    down nothing changes; a second such event right after changes
    nothing. *)
Theorem modal_collects_once env event_type w :
  event_type <> "RIGHTMOUSE" -> event_type <> "ESC" ->
  let o1 := run env (call (modal event_type)) w in
  fst o1 = Ok PASS_THROUGH
  /\ Op.task_finished (self (snd o1)) = false
  /\ (Op.task_finished (self w) = true ->
      Props.is_processing (props (snd o1)) = false
      /\ log (snd o1) =
         log w ++ [ EvPrint "Threaded task completed";
                    EvAssign (self_task_finished false);
                    EvAssign (props_is_processing false) ])
  /\ (Op.task_finished (self w) = false -> snd o1 = w)
  /\ run env (call (modal event_type)) (snd o1) = (Ok PASS_THROUGH, snd o1).
Proof.
  intros H1 H2. cbv zeta. unfold modal.
  apply String.eqb_neq in H1, H2. rewrite H1, H2. cbn [orb].
  destruct (Op.task_finished (self w)) eqn:Hf; cbn; rewrite ?Hf; cbn.
  - split; [reflexivity |]. split; [reflexivity |].
    split; [| split; [discriminate | reflexivity]].
    intros _. split; [reflexivity |]. rewrite <- !app_assoc. reflexivity.
  - split; [reflexivity |]. split; [auto |].
    split; [discriminate |]. split; [reflexivity |].
    rewrite ?Hf. reflexivity.
Qed.

(** X1, witness: a mouse move after the text-only job has ended. *)
Lemma modal_collects_once_witness :
  Op.task_finished
    (self (after_worker env_ok (fresh_world props_text scene_empty))) = true
  /\ Op.task_finished
       (self (snd (run env_ok (call (modal "MOUSEMOVE"))
                     (after_worker env_ok
                        (fresh_world props_text scene_empty))))) = false.
Proof.
  split; [vm_compute; reflexivity |].
  exact (proj1 (proj2
    (modal_collects_once env_ok "MOUSEMOVE"
       (after_worker env_ok (fresh_world props_text scene_empty))
       ltac:(discriminate) ltac:(discriminate)))).
Defined.

(** X2.  On RIGHTMOUSE or ESC, [modal] returns CANCELLED and touches
    nothing: a raised [task_finished] is not collected and the busy
    property is not cleared.  The handler is dropped, the worker is left
    as it is, and later events no longer reach [modal]. *)
Theorem modal_cancel_keeps_worker env event_type c :
  event_type = "RIGHTMOUSE" \/ event_type = "ESC" ->
  modal_on c = true ->
  run env (call (modal event_type)) (world c) = (Ok CANCELLED, world c)
  /\ step env c (HostEvent event_type) = mkConfig (world c) (worker c) false
  /\ forall later,
       step env (step env c (HostEvent event_type)) (HostEvent later) =
       step env c (HostEvent event_type).
Proof.
  intros Hev Hon.
  assert (Hrun : run env (call (modal event_type)) (world c) =
                 (Ok CANCELLED, world c)).
  { destruct Hev as [-> | ->]; reflexivity. }
  assert (Hstep : step env c (HostEvent event_type) =
                  mkConfig (world c) (worker c) false).
  { unfold step. rewrite Hon, Hrun. reflexivity. }
  split; [exact Hrun |]. split; [exact Hstep |].
  intros later. rewrite Hstep. reflexivity.
Qed.

(** X2, witness: ESC right after the text-only submission. *)
Lemma modal_cancel_keeps_worker_witness :
  step env_ok (start env_ok (fresh_world props_text scene_empty))
       (HostEvent "ESC") =
  mkConfig (world (start env_ok (fresh_world props_text scene_empty)))
           (worker (start env_ok (fresh_world props_text scene_empty)))
           false.
Proof.
  exact (proj1 (proj2
    (modal_cancel_keeps_worker env_ok "ESC"
       (start env_ok (fresh_world props_text scene_empty))
       (or_intror eq_refl) ltac:(vm_compute; reflexivity)))).
Defined.

(** ** [invoke] *)

(** X3.  When [invoke] raises, it does so before line 132: the
    properties (the busy flag among them), the scene and the timers are
    as before, the thread attribute is untouched and no thread has been
    started. *)
Theorem invoke_failure_leaves_idle env w e :
  fst (run env (call invoke) w) = Err e ->
  let w' := snd (run env (call invoke) w) in
  props w' = props w /\ scene w' = scene w /\ timers w' = timers w
  /\ Op.thread (self w') = Op.thread (self w)
  /\ existsb is_thread_start (log w') = existsb is_thread_start (log w).
Proof.
  cbv zeta. rewrite run_invoke. cbv zeta.
  destruct (_ && _); [discriminate |].
  pose proof (run_local env capture_mesh (snapshot_world w)
                all_cmds_capture_mesh) as Hl.
  destruct (run env capture_mesh (snapshot_world w)) as [[u | r | e'] w2];
    cbn [fst snd] in *.
  - pose proof (run_start_job env w2) as Hs. cbv zeta in Hs.
    destruct Hs as [Hs _]. rewrite Hs. discriminate.
  - discriminate.
  - intros _. destruct Hl as (Hp & Hs & Ht & Hth & _ & new & Hlog & Hnew).
    repeat split; auto.
    rewrite Hlog. cbn [log snapshot_world].
    rewrite !existsb_app. cbn.
    rewrite !orb_false_r.
    assert (Hx : existsb is_thread_start new = false).
    { clear Hlog. induction new as [| x new IH]; [reflexivity |].
      simpl in Hnew. apply andb_true_iff in Hnew as [Hx Hn].
      simpl. rewrite (IH Hn), orb_false_r.
      destruct x; try reflexivity; discriminate Hx. }
    rewrite Hx, orb_false_r. reflexivity.
Qed.

(** X3, witness: the export of the selected chair fails. *)
Lemma invoke_failure_leaves_idle_witness :
  fst (run env_export_fails (call invoke)
         (fresh_world props_mesh_texture scene_chair)) = Err "Export failed"
  /\ props (snd (run env_export_fails (call invoke)
                   (fresh_world props_mesh_texture scene_chair))) =
     props_mesh_texture.
Proof.
  split; [vm_compute; reflexivity |].
  exact (proj1
    (invoke_failure_leaves_idle env_export_fails
       (fresh_world props_mesh_texture scene_chair) "Export failed"
       ltac:(vm_compute; reflexivity))).
Defined.

Lemma find_mesh_skips objs pre rest :
  Forall (fun x => exists b, objs !! x = Some b
                             /\ String.eqb (Obj.type b) "MESH" = false) pre ->
  find_mesh objs (pre ++ rest) = find_mesh objs rest.
Proof.
  induction 1 as [| x pre (b & Hb & Ht) _ IH]; [reflexivity |].
  simpl. rewrite Hb, Ht. exact IH.
Qed.

(** X4.  The loop of lines 117-120 keeps the first selected object of
    type MESH and stops: the objects before it that are no meshes are
    skipped, the objects after it are not looked at, and a selection
    without a mesh leaves the instance as it was. *)
Theorem first_mesh_picks_first env w pre o ob post :
  Forall (fun x => exists b, objects (scene w) !! x = Some b
                             /\ String.eqb (Obj.type b) "MESH" = false) pre ->
  objects (scene w) !! o = Some ob ->
  Obj.type ob = "MESH" ->
  run env (first_mesh (pre ++ o :: post)) w =
    (Normal tt,
     record (EvAssign (self_selected_mesh o))
       (apply_assign (self_selected_mesh o) w))
  /\ run env (first_mesh pre) w = (Normal tt, w).
Proof.
  intros Hpre Ho Ht. rewrite !run_first_mesh.
  rewrite (find_mesh_skips _ _ _ Hpre).
  rewrite <- (app_nil_r pre) at 1. rewrite (find_mesh_skips _ _ _ Hpre).
  simpl. rewrite Ho, Ht. simpl. split; reflexivity.
Qed.

(** X4, witness: a lamp selected before the chair. *)
Lemma first_mesh_picks_first_witness :
  run env_ok (first_mesh [2%nat; 1%nat])
      (fresh_world props_mesh_texture scene_lamp_chair) =
  (Normal tt,
   record (EvAssign (self_selected_mesh 1%nat))
     (apply_assign (self_selected_mesh 1%nat)
        (fresh_world props_mesh_texture scene_lamp_chair))).
Proof.
  exact (proj1
    (first_mesh_picks_first env_ok
       (fresh_world props_mesh_texture scene_lamp_chair)
       [2%nat] 1%nat chair_obj []
       ltac:(constructor; [exists lamp_obj; split; vm_compute; reflexivity
                          | constructor])
       ltac:(vm_compute; reflexivity) ltac:(reflexivity))).
Defined.

Lemma start_job_keeps_mesh env w :
  let w' := snd (run env (call start_job) w) in
  Op.selected_mesh (self w') = Op.selected_mesh (self w)
  /\ Op.selected_mesh_base64 (self w') = Op.selected_mesh_base64 (self w)
  /\ Op.prompt (self w') = Op.prompt (self w)
  /\ Op.texture (self w') = Op.texture (self w)
  /\ Op.api_url (self w') = Op.api_url (self w)
  /\ scene w' = scene w
  /\ temp_count w' = temp_count w.
Proof.
  cbv zeta. unfold start_job, resolve_image_path, launch, startswith.
  destruct (String.prefix "//" (Op.image_path (self w))) eqn:Hp;
    repeat progress (cbn; rewrite ?Hp); repeat split.
Qed.

(** X5.  With something entered, a mesh in the selection, and the
    temporary file, export, read and unlink all succeeding, [invoke]
    returns RUNNING_MODAL with [selected_mesh] the first selected mesh
    and [selected_mesh_base64] the base64 text of the exported file; the
    scene is as before. *)
Theorem invoke_captures_mesh env w o name data :
  String.eqb (Props.prompt (props w)) ""
  && String.eqb (Props.image_path (props w)) "" = false ->
  find_mesh (objects (scene w)) (selected_objects (scene w)) = Ok (Some o) ->
  tempfile_name env (temp_count w) = Ok name ->
  export_gltf env name (scene w) = Ok tt ->
  read_file env name = Ok data ->
  os_unlink env name = Ok tt ->
  let out := run env (call invoke) w in
  fst out = Ok RUNNING_MODAL
  /\ Op.selected_mesh (self (snd out)) = Some o
  /\ Op.selected_mesh_base64 (self (snd out)) = b64encode data
  /\ scene (snd out) = scene w.
Proof.
  intros Hg Hfind Htmp Hexp Hread Hunl. cbv zeta.
  rewrite run_invoke. cbv zeta. rewrite Hg.
  eassert (Hcap : run env capture_mesh (snapshot_world w) = _).
  { unfold capture_mesh.
    rewrite run_pbind. simpl run at 1. cbv beta iota.
    rewrite run_pbind, run_first_mesh.
    change (scene (snapshot_world w)) with (scene w). rewrite Hfind.
    cbv beta iota.
    repeat progress (cbn; rewrite ?Htmp, ?Hexp, ?Hread, ?Hunl).
    reflexivity. }
  rewrite Hcap.
  pose proof (run_start_job env) as Hs. cbv zeta in Hs.
  pose proof (start_job_keeps_mesh env) as Hk. cbv zeta in Hk.
  match goal with
  | |- context [run env (call start_job) ?w2] =>
      destruct (Hs w2) as (Hs1 & _);
      destruct (Hk w2) as (Hk1 & Hk2 & _ & _ & _ & Hk3 & _)
  end.
  rewrite Hs1, Hk1, Hk2, Hk3. repeat split.
Qed.

(** X5, witness: the chair, exported as the four bytes [glTF]. *)
Lemma invoke_captures_mesh_witness :
  Op.selected_mesh_base64
    (self (after_invoke env_ok (fresh_world props_mesh_texture scene_chair))) =
  "Z2xURg==".
Proof.
  exact (proj1 (proj2 (proj2
    (invoke_captures_mesh env_ok
       (fresh_world props_mesh_texture scene_chair) 1%nat "/tmp/t.glb" "glTF"
       ltac:(vm_compute; reflexivity) ltac:(vm_compute; reflexivity)
       ltac:(vm_compute; reflexivity) ltac:(vm_compute; reflexivity)
       ltac:(vm_compute; reflexivity) ltac:(vm_compute; reflexivity))))).
Defined.

(** ** The worker *)

Lemma all_cmds_generate_model :
  all_cmds (@cmd_is_worker) (call generate_model).
Proof.
  unfold generate_model, generate_model_try, generate_model_finally,
    post_request.
  cmds_crunch.
Qed.

Lemma exec_cmd_worker_frame env {X : Type} (c : cmd X) w0 w :
  cmd_is_worker c = true -> worker_frame w0 w ->
  worker_frame w0 (snd (exec_cmd env c w)).
Proof.
  unfold worker_frame, snapshot_of, settings_of.
  intros Hc (Hs & Hsnap & Hset).
  destruct c; try discriminate Hc; cbn in *;
    repeat match goal with
      | a : assign |- _ => destruct a; try discriminate Hc
      | |- context [match ?x with _ => _ end] => destruct x
      end;
    cbn in *; auto.
Qed.

Lemma generate_model_worker_frame env w :
  worker_frame w (snd (run env (call generate_model) w)).
Proof.
  apply (run_all_cmds env (@cmd_is_worker) worker_frame
           (call generate_model) w w).
  - intros X c w1 Hc Hw. apply exec_cmd_worker_frame; assumption.
  - apply all_cmds_generate_model.
  - unfold worker_frame. auto.
Qed.

(** X6.  Whatever the environment answers, the worker leaves the scene,
    the attributes it only reads (prompt, URL, image path, the three
    parameters, the texture flag, the mesh reference) and every property
    but [is_processing] as they were. *)
Theorem worker_keeps_scene_and_snapshot env w :
  let w' := snd (run env (call generate_model) w) in
  scene w' = scene w
  /\ snapshot_of (self w') = snapshot_of (self w)
  /\ settings_of (props w') = settings_of (props w).
Proof. cbv zeta. apply generate_model_worker_frame. Qed.

Lemma exec_cmd_same_but_props env {X : Type} (c : cmd X) w1 w2 :
  cmd_is_worker c = true -> same_but_props w1 w2 ->
  fst (exec_cmd env c w1) = fst (exec_cmd env c w2)
  /\ same_but_props (snd (exec_cmd env c w1)) (snd (exec_cmd env c w2)).
Proof.
  unfold same_but_props.
  intros Hc (Hs & Hsc & Ht & Hn & Hl).
  destruct c; try discriminate Hc; cbn in *;
    rewrite ?Hs, ?Hsc, ?Ht, ?Hn, ?Hl;
    repeat match goal with
      | a : assign |- _ => destruct a; try discriminate Hc
      | |- context [match ?x with _ => _ end] => destruct x
      end;
    cbn in *; rewrite ?Hs, ?Hsc, ?Ht, ?Hn, ?Hl; auto 10.
Qed.

Lemma run_same_but_props env {A : Type} (p : prog A) w1 w2 :
  all_cmds (@cmd_is_worker) p -> same_but_props w1 w2 ->
  fst (run env p w1) = fst (run env p w2)
  /\ same_but_props (snd (run env p w1)) (snd (run env p w2)).
Proof.
  revert w1 w2. induction p as [a | X c k IH]; intros w1 w2 Hp Hw; simpl.
  - auto.
  - destruct Hp as [Hc Hk].
    destruct (exec_cmd_same_but_props env c w1 w2 Hc Hw) as [Hx Hw'].
    destruct (exec_cmd env c w1) as [x1 w1'].
    destruct (exec_cmd env c w2) as [x2 w2']. cbn [fst snd] in *. subst x2.
    apply IH; [apply Hk | exact Hw'].
Qed.

(** X7.  The worker never reads a property value: started from two
    states that differ only in the property group it returns the same
    result, logs the same events, registers the same timers and leaves
    the same instance attributes. *)
Theorem worker_ignores_later_edits env w p' :
  let out := run env (call generate_model) w in
  let out' := run env (call generate_model) (with_props p' w) in
  fst out' = fst out
  /\ log (snd out') = log (snd out)
  /\ timers (snd out') = timers (snd out)
  /\ self (snd out') = self (snd out).
Proof.
  cbv zeta.
  destruct (run_same_but_props env (call generate_model) (with_props p' w) w
              all_cmds_generate_model) as (Hf & Hs & _ & Ht & _ & Hl).
  { unfold same_but_props. auto. }
  auto.
Qed.

Lemma posted_urls_app l l' :
  posted_urls (l ++ l') = posted_urls l ++ posted_urls l'.
Proof.
  induction l as [| e l IH]; [reflexivity |].
  destruct e; simpl; rewrite ?IH; reflexivity.
Qed.

Lemma exec_cmd_posts env {X : Type} (c : cmd X) w :
  exists new,
    log (snd (exec_cmd env c w)) = log w ++ new
    /\ posted_urls new =
       match c with
       | Post u _ => [u]
       | _ => []
       end.
Proof.
  destruct c; cbn -[lookup insert];
    repeat match goal with
      | a : assign |- _ => destruct a
      | |- context [match ?x with _ => _ end] => destruct x
      end;
    cbn -[lookup insert];
    first [ exists []; split; [symmetry; apply app_nil_r | reflexivity]
          | eexists; split; [reflexivity | reflexivity] ].
Qed.

Lemma run_posts env url {A : Type} (p : prog A) n w :
  posts_at_most url n p ->
  exists new,
    log (snd (run env p w)) = log w ++ new
    /\ (length (posted_urls new) <= n)%nat
    /\ Forall (fun u => u = url) (posted_urls new).
Proof.
  revert n w. induction p as [a | X c k IH]; intros n w Hp; simpl.
  - exists []. split; [symmetry; apply app_nil_r |].
    split; [simpl; lia | constructor].
  - destruct Hp as [Hc Hk].
    destruct (exec_cmd_posts env c w) as (new1 & Hl1 & Hu1).
    destruct (exec_cmd env c w) as [x w1]. cbn [snd] in *.
    destruct (IH x _ w1 (Hk x)) as (new2 & Hl2 & Hn2 & Hf2).
    exists (new1 ++ new2). rewrite Hl2, Hl1, <- app_assoc.
    split; [reflexivity |]. rewrite posted_urls_app, Hu1.
    destruct c; cbn in *; try (split; [lia | assumption]).
    destruct Hc as [-> Hn]. split; [lia |].
    constructor; [reflexivity | assumption].
Qed.

Ltac posts_crunch :=
  repeat (cbn;
          match goal with
          | |- True => exact I
          | |- _ /\ _ => split
          | |- ?x = ?x => reflexivity
          | |- S _ <> O => discriminate
          | |- forall _, _ => intro
          | |- context [match ?x with _ => _ end] => destruct x
          | |- context [if ?x then _ else _] => destruct x
          end).

Lemma posts_try_block base :
  posts_at_most (base ++ "/generate") 1
    (try_finally
       (try_except (generate_model_try base)
          (fun e => exec (Report ERROR ("Error: " ++ e))))
       generate_model_finally).
Proof.
  unfold generate_model_try, generate_model_finally, post_request.
  posts_crunch.
Qed.

(** X8.  A run of the worker sends at most one request, and sends it to
    the API URL without its trailing slashes followed by [/generate]. *)
Theorem worker_posts_at_most_once env w :
  let w' := snd (run env (call generate_model) w) in
  let urls := posted_urls (new_events w w') in
  (length urls <= 1)%nat
  /\ Forall (fun u => u = (rstrip_sep (Op.api_url (self w)) ++ "/generate")
                            %string)
            urls.
Proof.
  cbv zeta.
  assert (Hrun : snd (run env (call generate_model) w) =
                 snd (run env
                        (try_finally
                           (try_except
                              (generate_model_try
                                 (rstrip_sep (Op.api_url (self w))))
                              (fun e => exec (Report ERROR ("Error: " ++ e))))
                           generate_model_finally)
                        (record (EvReport INFO "Generation Start") w))).
  { rewrite run_call. unfold generate_model.
    rewrite run_pbind. simpl run at 1. cbv beta iota.
    rewrite run_pbind. simpl run at 1. cbv beta iota. cbn [self record].
    destruct (run env (try_finally _ _) _) as [c w']. reflexivity. }
  rewrite Hrun. clear Hrun.
  destruct (run_posts env _ _ 1 (record (EvReport INFO "Generation Start") w)
              (posts_try_block (rstrip_sep (Op.api_url (self w)))))
    as (new & Hl & Hn & Hf).
  destruct (run env (try_finally _ _) _) as [c w']. cbn [snd log record] in *.
  assert (Hnew : new_events w w' = EvReport INFO "Generation Start" :: new).
  { apply new_events_app. rewrite Hl, <- app_assoc. reflexivity. }
  rewrite Hnew. cbn [posted_urls]. split; assumption.
Qed.

Lemma all_sep_app_sep s : all_sep (s ++ "/") = all_sep s.
Proof.
  induction s as [| c r IH]; [reflexivity |].
  simpl. rewrite IH. reflexivity.
Qed.

Lemma rstrip_sep_empty s : rstrip_sep s = "" -> all_sep s = true.
Proof.
  induction s as [| c r IH]; [reflexivity |].
  simpl. destruct (all_sep r) eqn:Ha; simpl.
  - destruct (Ascii.eqb c "/"); [reflexivity | discriminate].
  - discriminate.
Qed.

(** X9.  [rstrip('/')] as line 160 applies it to the API URL: one more
    trailing slash changes nothing, the result never ends in a slash,
    and a URL that does not end in a slash is kept as it is. *)
Theorem rstrip_sep_trailing_slashes s :
  rstrip_sep (s ++ "/") = rstrip_sep s
  /\ ends_with_sep (rstrip_sep s) = false
  /\ (ends_with_sep s = false -> rstrip_sep s = s).
Proof.
  split; [| split].
  - induction s as [| c r IH]; [reflexivity |].
    simpl. rewrite all_sep_app_sep, IH. reflexivity.
  - induction s as [| c r IH]; [reflexivity |].
    simpl. destruct (all_sep r && Ascii.eqb c "/") eqn:Hc; [reflexivity |].
    simpl. destruct (rstrip_sep r) as [| c' r'] eqn:Hr.
    + apply rstrip_sep_empty in Hr. rewrite Hr in Hc. exact Hc.
    + exact IH.
  - induction s as [| c r IH]; [reflexivity |].
    simpl. destruct r as [| c' r'].
    + simpl. intros ->. reflexivity.
    + intros He. rewrite (IH He).
      destruct (all_sep (String c' r') && Ascii.eqb c "/") eqn:Hc;
        [| reflexivity].
      exfalso. apply andb_true_iff in Hc as [Ha _].
      clear IH c. revert c' Ha He.
      induction r' as [| c2 r2 IH2]; intros c' Ha He; simpl in *.
      * rewrite andb_true_r in Ha. congruence.
      * apply andb_true_iff in Ha as [_ Ha]. apply (IH2 c2); assumption.
Qed.

(** X9, witness: the default API URL. *)
Lemma rstrip_sep_trailing_slashes_witness :
  rstrip_sep "http://localhost:8080" = "http://localhost:8080".
Proof.
  exact (proj2 (proj2 (rstrip_sep_trailing_slashes "http://localhost:8080"))
           ltac:(vm_compute; reflexivity)).
Defined.

(** X10.  Whenever building or sending the request raises, the worker
    reports [Error: ] followed by the message, runs the [finally] block,
    registers no timer and returns normally; the job ends Finished with
    the busy flag down. *)
Theorem worker_reports_exception env w e w1 :
  run env (post_request (rstrip_sep (Op.api_url (self w))))
      (record (EvReport INFO "Generation Start") w) = (Raised e, w1) ->
  let out := run env (call generate_model) w in
  fst out = Ok RetNone
  /\ log (snd out) =
     log w1 ++ [ EvReport ERROR ("Error: " ++ e)%string;
                 EvAssign (self_task_finished true);
                 EvAssign (props_is_processing false);
                 EvAssign (self_selected_mesh_base64 "") ]
  /\ timers (snd out) = timers w1
  /\ Props.is_processing (props (snd out)) = false
  /\ job_state_of (snd out) = Finished.
Proof.
  intros H. cbv zeta. rewrite run_generate_model.
  unfold try_except, generate_model_try.
  rewrite run_bind, run_pbind, H. cbn.
  rewrite <- !app_assoc. simpl. auto.
Qed.

(** X10, witness: the service refuses the connection. *)
Lemma worker_reports_exception_witness :
  job_state_of
    (after_worker env_offline (fresh_world props_text scene_empty)) =
  Finished.
Proof.
  exact (proj2 (proj2 (proj2 (proj2
    (worker_reports_exception env_offline
       (after_invoke env_offline (fresh_world props_text scene_empty))
       "Connection refused"
       (snd (run env_offline (post_request "http://localhost:8080")
               (record (EvReport INFO "Generation Start")
                  (after_invoke env_offline
                     (fresh_world props_text scene_empty)))))
       ltac:(vm_compute; reflexivity)))))).
Defined.

(** X11.  When the response is 200 but writing its content to the
    temporary file raises, the two flags have been written already, the
    error is reported after the write attempt, the [finally] block runs
    and no timer is registered. *)
Theorem worker_reports_write_failure env w resp w1 name e :
  run env (post_request (rstrip_sep (Op.api_url (self w))))
      (record (EvReport INFO "Generation Start") w) = (Normal resp, w1) ->
  status_code resp = 200%Z ->
  tempfile_name env (temp_count w1) = Ok name ->
  write_file env name (content resp) = Err e ->
  let out := run env (call generate_model) w in
  fst out = Ok RetNone
  /\ log (snd out) =
     log w1 ++ [ EvReport INFO "Post Done";
                 EvAssign (self_task_finished true);
                 EvAssign (props_is_processing false);
                 EvTempFile name;
                 EvWrite name (content resp);
                 EvReport ERROR ("Error: " ++ e)%string;
                 EvAssign (self_task_finished true);
                 EvAssign (props_is_processing false);
                 EvAssign (self_selected_mesh_base64 "") ]
  /\ timers (snd out) = timers w1.
Proof.
  intros H Hs Ht Hw. cbv zeta. rewrite run_generate_model.
  rewrite (run_try_block _ _ _ _ _ H). cbv zeta.
  apply Z.eqb_eq in Hs. rewrite Hs. cbn. rewrite Ht. cbn. rewrite Hw. cbn.
  rewrite <- !app_assoc. simpl. auto.
Qed.

(** X11, witness: the disk is full. *)
Lemma worker_reports_write_failure_witness :
  timers (after_worker env_disk_full (fresh_world props_text scene_empty)) =
  timers (after_invoke env_disk_full (fresh_world props_text scene_empty)).
Proof.
  pose proof
    (worker_reports_write_failure env_disk_full
       (after_invoke env_disk_full (fresh_world props_text scene_empty))
       (mkResponse 200 "" "GLB")
       (snd (run env_disk_full (post_request "http://localhost:8080")
               (record (EvReport INFO "Generation Start")
                  (after_invoke env_disk_full
                     (fresh_world props_text scene_empty)))))
       "/tmp/t.glb" "No space left on device"
       ltac:(vm_compute; reflexivity) ltac:(reflexivity)
       ltac:(vm_compute; reflexivity) ltac:(vm_compute; reflexivity))
    as (_ & _ & H).
  unfold after_worker. rewrite H. vm_compute. reflexivity.
Defined.

(** X12.  When the import raises, [import_handler] raises with the same
    message right after the import call: the temporary file is not
    unlinked and the scene is not touched.  Fired as a timer, it is
    removed from the timers all the same. *)
Theorem import_failure_keeps_temp_file env temp_name w e :
  import_gltf env temp_name (scene w) = Err e ->
  run env (call (import_handler temp_name)) w =
    (Err e, record (EvImport temp_name) w)
  /\ forall rest wk m,
       timers w = temp_name :: rest ->
       let c := step env (mkConfig w wk m) HostTimer in
       timers (world c) = rest
       /\ log (world c) = log w ++ [EvImport temp_name]
       /\ scene (world c) = scene w.
Proof.
  intros Himp.
  assert (Hrun : forall w', scene w' = scene w ->
            run env (call (import_handler temp_name)) w' =
            (Err e, record (EvImport temp_name) w')).
  { intros w' Hsc. unfold import_handler. cbn -[lookup insert].
    rewrite Hsc, Himp. reflexivity. }
  split; [apply Hrun; reflexivity |].
  intros rest wk m Htm. unfold step. cbn [world worker modal_on].
  rewrite Htm, Hrun by reflexivity. cbn. auto.
Qed.

(** X12, witness: the importer rejects the asset. *)
Lemma import_failure_keeps_temp_file_witness :
  fst (run env_bad_asset (call (import_handler "/tmp/t.glb"))
         (after_worker env_bad_asset (fresh_world props_text scene_empty))) =
  Err "Bad glTF: json error".
Proof.
  pose proof
    (import_failure_keeps_temp_file env_bad_asset "/tmp/t.glb"
       (after_worker env_bad_asset (fresh_world props_text scene_empty))
       "Bad glTF: json error" ltac:(vm_compute; reflexivity)) as [H _].
  rewrite H. reflexivity.
Defined.

Lemma run_log_extends env {A : Type} (p : prog A) w :
  exists new, log (snd (run env p w)) = log w ++ new.
Proof.
  revert w. induction p as [a | X c k IH]; intros w; simpl.
  - exists []. symmetry. apply app_nil_r.
  - destruct (exec_cmd_posts env c w) as (new1 & Hl1 & _).
    destruct (exec_cmd env c w) as [x w1]. cbn [snd] in *.
    destruct (IH x w1) as (new2 & Hl2).
    exists (new1 ++ new2). rewrite Hl2, Hl1, <- app_assoc. reflexivity.
Qed.

Lemma import_handler_keeps_timers env temp_name w :
  timers (snd (run env (call (import_handler temp_name)) w)) = timers w.
Proof.
  apply (run_all_cmds env (@cmd_keeps_timers)
           (fun w0 w1 => timers w1 = timers w0)
           (call (import_handler temp_name)) w w); [| | reflexivity].
  - intros X c w1 Hc Hw.
    destruct c; try discriminate Hc; cbn -[lookup insert];
      repeat match goal with
        | a : assign |- _ => destruct a
        | |- context [match ?x with _ => _ end] => destruct x
        end; cbn -[lookup insert]; auto.
  - unfold import_handler, index0. cmds_crunch.
Qed.

(** X13.  With a 200 response and its content written, the worker
    leaves one timer, for the file that holds the response content.
    When the timer fires (import and unlink succeeding) the handler
    imports that file, then unlinks it, and no timer is left. *)
Theorem handoff_imports_written_asset env w resp w1 name sc1 :
  run env (post_request (rstrip_sep (Op.api_url (self w))))
      (record (EvReport INFO "Generation Start") w) = (Normal resp, w1) ->
  status_code resp = 200%Z ->
  tempfile_name env (temp_count w1) = Ok name ->
  write_file env name (content resp) = Ok tt ->
  timers w1 = [] ->
  import_gltf env name (scene w) = Ok sc1 ->
  os_unlink env name = Ok tt ->
  let wa := snd (run env (call generate_model) w) in
  timers wa = [name]
  /\ In (EvWrite name (content resp)) (log wa)
  /\ forall wk m,
       let c := step env (mkConfig wa wk m) HostTimer in
       timers (world c) = []
       /\ exists rest,
            log (world c) =
            log wa ++ [EvImport name; EvUnlink name] ++ rest.
Proof.
  intros H Hs Ht Hw Htm Himp Hunl. cbv zeta.
  pose proof (generate_model_worker_frame env w) as (Hsc & _ & _).
  assert (Hwa : timers (snd (run env (call generate_model) w)) = [name]
                /\ In (EvWrite name (content resp))
                      (log (snd (run env (call generate_model) w)))).
  { rewrite run_generate_model.
    rewrite (run_try_block _ _ _ _ _ H). cbv zeta.
    apply Z.eqb_eq in Hs. rewrite Hs. cbn. rewrite Ht. cbn. rewrite Hw. cbn.
    rewrite Htm. split; [reflexivity |].
    rewrite <- !app_assoc. apply in_or_app. right. simpl. auto 10. }
  destruct Hwa as [Hta Hla].
  generalize dependent (snd (run env (call generate_model) w)).
  intros wa Hsc Hta Hla.
  split; [exact Hta |]. split; [exact Hla |].
  intros wk m. unfold step. cbn [world worker modal_on]. rewrite Hta.
  pose proof (import_handler_keeps_timers env name (with_timers [] wa)) as Hk.
  assert (Hrun : exists rest,
            log (snd (run env (call (import_handler name))
                        (with_timers [] wa))) =
            log wa ++ [EvImport name; EvUnlink name] ++ rest).
  { unfold call, import_handler.
    rewrite run_bind, run_pbind. cbn -[lookup insert]. rewrite Hsc, Himp.
    cbn -[lookup insert]. rewrite Hunl. cbn -[lookup insert].
    match goal with
    | |- context [run env ?p ?w0] =>
        destruct (run_log_extends env p w0) as (rest & Hrest);
        destruct (run env p w0) as [c0 w2]
    end.
    cbn [snd] in *. exists rest.
    destruct c0; cbn -[lookup insert app]; rewrite Hrest;
      cbn -[lookup insert app]; rewrite <- !app_assoc; reflexivity. }
  destruct (run env (call (import_handler name)) (with_timers [] wa))
    as [r wb].
  cbn [snd world] in *. split; [exact Hk | exact Hrun].
Qed.

(** X13, witness: the text-only job against a service that answers 200. *)
Lemma handoff_imports_written_asset_witness :
  timers (after_worker env_ok (fresh_world props_text scene_empty)) =
  ["/tmp/t.glb"].
Proof.
  exact (proj1
    (handoff_imports_written_asset env_ok
       (after_invoke env_ok (fresh_world props_text scene_empty))
       (mkResponse 200 "" "GLB")
       (snd (run env_ok (post_request "http://localhost:8080")
               (record (EvReport INFO "Generation Start")
                  (after_invoke env_ok
                     (fresh_world props_text scene_empty)))))
       "/tmp/t.glb" scene_empty_imported
       ltac:(vm_compute; reflexivity) ltac:(reflexivity)
       ltac:(vm_compute; reflexivity) ltac:(vm_compute; reflexivity)
       ltac:(vm_compute; reflexivity) ltac:(vm_compute; reflexivity)
       ltac:(vm_compute; reflexivity))).
Defined.

(** ** The image path *)



(** ** The panel *)

Lemma split_lines_not_nil s : split_lines s <> [].
Proof.
  destruct s as [| c r]; simpl; [discriminate |].
  destruct (Ascii.eqb c "010"); [discriminate |].
  destruct (split_lines r); discriminate.
Qed.

Lemma join_split_lines s : join_lines (split_lines s) = s.
Proof.
  induction s as [| c r IH]; [reflexivity |].
  cbn [split_lines].
  destruct (Ascii.eqb_spec c "010") as [-> | Hc].
  - cbn [join_lines]. destruct (split_lines r) as [| h t] eqn:Hs.
    + exfalso. exact (split_lines_not_nil r Hs).
    + rewrite IH. reflexivity.
  - destruct (split_lines r) as [| h t] eqn:Hs.
    + exfalso. exact (split_lines_not_nil r Hs).
    + cbn [join_lines] in *. destruct t; rewrite <- IH; reflexivity.
Qed.

Lemma split_lines_no_newline s :
  forallb (fun l => negb (has_newline l)) (split_lines s) = true.
Proof.
  induction s as [| c r IH]; [reflexivity |].
  cbn [split_lines].
  destruct (Ascii.eqb c "010") eqn:Hc; [exact IH |].
  destruct (split_lines r) as [| h t]; simpl in *; rewrite Hc; [reflexivity |].
  exact IH.
Qed.

Lemma labels_map_label l : labels (map UiLabel l) = l.
Proof. induction l as [| x l IH]; simpl; [| rewrite IH]; reflexivity. Qed.

(** X15.  While a job runs and the status message is not empty, the
    labels of the panel are the lines of the status message: joined by
    newlines they give the message back, none of them holds a newline,
    and the button row is disabled. *)
Theorem draw_shows_status_lines p :
  Props.is_processing p = true ->
  Props.status_message p <> "" ->
  join_lines (labels (draw p)) = Props.status_message p
  /\ forallb (fun l => negb (has_newline l)) (labels (draw p)) = true
  /\ In (UiOperator false bl_idname) (draw p).
Proof.
  intros Hb Hs. unfold draw. rewrite Hb.
  assert (Ht : truthy (Props.status_message p) = true).
  { unfold truthy. destruct (String.eqb_spec (Props.status_message p) "");
      [contradiction | reflexivity]. }
  rewrite Ht. cbn [app labels negb]. rewrite labels_map_label.
  split; [apply join_split_lines |]. split; [apply split_lines_no_newline |].
  simpl. auto 10.
Qed.

(** X15, witness: the panel during an image-to-3D job. *)
Lemma draw_shows_status_lines_witness :
  join_lines (labels (draw props_busy)) =
  ("Generating White Mesh with Image..." ++ nl ++ wait_text)%string.
Proof.
  exact (proj1
    (draw_shows_status_lines props_busy
       ltac:(reflexivity) ltac:(vm_compute; discriminate))).
Defined.

(** X16.  [draw] calls [layout.label] exactly when [is_processing] is
    set, and the button row is enabled exactly when it is not. *)
Theorem draw_labels_iff_busy p :
  existsb is_label_call (draw p) = Props.is_processing p
  /\ (In (UiOperator true bl_idname) (draw p) <->
      Props.is_processing p = false).
Proof.
  unfold draw. destruct (Props.is_processing p); cbn [app negb].
  - split.
    + cbn. destruct (truthy (Props.status_message p)); [| reflexivity].
      destruct (split_lines (Props.status_message p)) as [| h t] eqn:Hs;
        [exfalso; exact (split_lines_not_nil _ Hs) | reflexivity].
    + split; [| discriminate]. intros H. simpl in H.
      repeat (destruct H as [H | H]; [discriminate H |]).
      destruct (truthy (Props.status_message p)).
      * apply in_map_iff in H as (x & Hx & _). discriminate Hx.
      * simpl in H. destruct H as [H | []]. discriminate H.
  - split; [reflexivity |]. split; auto. intros _. simpl. auto 10.
Qed.

(** X17.  Right after a submission that [invoke] accepted, the panel
    shows the button disabled and three labels: a first line without a
    newline and the two lines of the waiting text. *)
Theorem draw_after_invoke env w :
  fst (run env (call invoke) w) = Ok RUNNING_MODAL ->
  let ui := draw (props (snd (run env (call invoke) w))) in
  In (UiOperator false bl_idname) ui
  /\ exists first,
       labels ui = [ first; "This may take several minutes depending ";
                     " on your GPU power." ]
       /\ has_newline first = false.
Proof.
  rewrite run_invoke. cbv zeta.
  destruct (_ && _); [discriminate |].
  pose proof (capture_mesh_frame env (snapshot_world w)) as Hf.
  cbv zeta in Hf.
  destruct (run env capture_mesh (snapshot_world w)) as [[u | r | e] w2];
    cbn [fst snd] in *;
    [| intros; exfalso; apply (proj1 Hf r); reflexivity | discriminate].
  clear Hf. intros _.
  pose proof (run_start_job env w2) as Hs. cbv zeta in Hs.
  destruct Hs as (_ & _ & Hbusy & Hmsg & _).
  unfold draw. rewrite Hbusy, Hmsg. cbn [app labels negb].
  split; [simpl; auto 10 |].
  unfold status_text.
  match goal with
  | |- context [has_mesh ?s && Op.texture ?s] =>
      destruct (has_mesh s && Op.texture s);
      [| destruct (Op.texture s); destruct (truthy (Op.prompt s))]
  end;
    eexists; (split; [vm_compute; reflexivity | reflexivity]).
Qed.

(** X17, witness: the text-only submission. *)
Lemma draw_after_invoke_witness :
  In (UiOperator false bl_idname)
     (draw (props (after_invoke env_ok
                     (fresh_world props_text scene_empty)))).
Proof.
  exact (proj1
    (draw_after_invoke env_ok (fresh_world props_text scene_empty)
       ltac:(vm_compute; reflexivity))).
Defined.

(** ** The mesh snapshot *)

Lemma string_ind3 (P : string -> Prop) :
  P "" ->
  (forall a, P (String a "")) ->
  (forall a b, P (String a (String b ""))) ->
  (forall a b c r, P r -> P (String a (String b (String c r)))) ->
  forall s, P s.
Proof.
  intros H0 H1 H2 H3.
  assert (H : forall s, P s /\ (forall a, P (String a s))
                        /\ (forall a b, P (String a (String b s)))).
  { induction s as [| c r (Ha & Hb & Hc)].
    - auto.
    - split; [apply Hb |]. split; [intros a; apply Hc |].
      intros a b. apply H3, Ha. }
  intros s. apply H.
Qed.

Lemma length_quad_append c1 c2 c3 c4 t :
  String.length
    (String c1 (String c2 (String c3 (String c4 ""))) ++ t)%string =
  S (S (S (S (String.length t)))).
Proof. reflexivity. Qed.

(** X18.  The base64 text of n bytes has 4 * ceil(n / 3) characters,
    and it is empty exactly when the input is: the test of line 163
    sees a mesh snapshot exactly when the exported file was not
    empty. *)
Theorem b64encode_length s :
  String.length (b64encode s) = (4 * ((String.length s + 2) / 3))%nat
  /\ truthy (b64encode s) = truthy s.
Proof.
  induction s as [| a | a b | a b c r [IH1 IH2]] using string_ind3.
  - split; reflexivity.
  - split; reflexivity.
  - split; reflexivity.
  - split.
    + change (b64encode (String a (String b (String c r))))
        with (b64_group (N_of_ascii a) (N_of_ascii b) (N_of_ascii c)
              ++ b64encode r)%string.
      unfold b64_group. rewrite length_quad_append, IH1.
      change (String.length (String a (String b (String c r))))
        with (S (S (S (String.length r)))).
      replace (S (S (S (String.length r))) + 2)%nat
        with (String.length r + 2 + 1 * 3)%nat by lia.
      rewrite Nat.div_add by discriminate. lia.
    + reflexivity.
Qed.

(** ** From the panel to the request *)

Lemma posted_app l l' : posted (l ++ l') = posted l ++ posted l'.
Proof.
  induction l as [| e l IH]; [reflexivity |].
  destruct e; simpl; rewrite ?IH; reflexivity.
Qed.

(** The worker sends what the request builder sends, nothing more. *)
Lemma worker_posts_what_builder_posts env w :
  let w0 := record (EvReport INFO "Generation Start") w in
  posted (new_events w (snd (run env (call generate_model) w))) =
  posted (new_events w0
            (snd (run env (post_request (rstrip_sep (Op.api_url (self w))))
                    w0))).
Proof.
  cbv zeta. rewrite run_generate_model.
  set (w0 := record (EvReport INFO "Generation Start") w).
  set (base := rstrip_sep (Op.api_url (self w))).
  destruct (run_log_extends env (post_request base) w0) as (new & Hnew).
  destruct (run env (post_request base) w0) as [[resp | r | e] w1] eqn:Hrun;
    cbn [snd] in *.
  - rewrite (run_try_block _ _ _ _ _ Hrun). cbv zeta.
    rewrite (new_events_app w0 w1 new Hnew).
    destruct (negb (status_code resp =? 200)%Z);
      [| cbn; destruct (tempfile_name env (temp_count w1)) as [name | e1];
         [cbn; destruct (write_file env name (content resp)) as [[] | e2] |]];
      (erewrite (new_events_app w);
       [| cbn; rewrite Hnew; subst w0; cbn; rewrite <- !app_assoc;
          reflexivity]);
      cbn; rewrite posted_app; cbn; rewrite app_nil_r; reflexivity.
  - rewrite (new_events_app w0 w1 new Hnew).
    unfold try_except, generate_model_try.
    rewrite run_bind, run_pbind, Hrun. cbn -[new_events].
    (erewrite (new_events_app w);
       [| cbn; rewrite Hnew; subst w0; cbn; rewrite <- !app_assoc;
          reflexivity]);
      cbn; rewrite posted_app; cbn; rewrite app_nil_r; reflexivity.
  - rewrite (new_events_app w0 w1 new Hnew).
    unfold try_except, generate_model_try.
    rewrite run_bind, run_pbind, Hrun. cbn -[new_events].
    (erewrite (new_events_app w);
       [| cbn; rewrite Hnew; subst w0; cbn; rewrite <- !app_assoc;
          reflexivity]);
      cbn; rewrite posted_app; cbn; rewrite app_nil_r; reflexivity.
Qed.

Lemma exec_cmd_request_fields env {X : Type} (c : cmd X) w0 w :
  cmd_keeps_request_fields c = true ->
  request_fields (self w) = request_fields (self w0) ->
  request_fields (self (snd (exec_cmd env c w))) = request_fields (self w0).
Proof.
  intros Hc Hw.
  destruct c; cbn -[lookup insert] in *;
    repeat match goal with
      | a : assign |- _ => destruct a; try discriminate Hc
      | |- context [match ?x with _ => _ end] => destruct x
      end;
    cbn -[lookup insert] in *; auto.
Qed.

Lemma run_request_fields env {A : Type} (p : prog A) w :
  all_cmds (@cmd_keeps_request_fields) p ->
  request_fields (self (snd (run env p w))) = request_fields (self w).
Proof.
  intros Hp.
  apply (run_all_cmds env (@cmd_keeps_request_fields)
           (fun w0 w1 => request_fields (self w1) = request_fields (self w0))
           p w w); [| exact Hp | reflexivity].
  intros X c w1 Hc Hw. apply exec_cmd_request_fields; assumption.
Qed.

Lemma all_cmds_capture_mesh_fields :
  all_cmds (@cmd_keeps_request_fields) capture_mesh.
Proof.
  unfold capture_mesh. apply all_cmds_pbind; [cmds_crunch |].
  intros objs. apply all_cmds_pbind.
  - induction objs as [| o r IH]; cmds_crunch. exact IH.
  - intros []. cmds_crunch.
Qed.

Lemma all_cmds_start_job_fields :
  all_cmds (@cmd_keeps_request_fields) (call start_job).
Proof.
  unfold start_job, resolve_image_path, launch. cmds_crunch.
Qed.

(** X19.  Whatever [invoke] returns, the prompt, the API URL, the three
    parameters and the texture flag on the instance are the property
    values at the time of the call, and what the user entered on the
    panel is untouched: of the properties only [is_processing] and
    [status_message] may have changed. *)
Theorem invoke_snapshots_settings env w :
  let w' := snd (run env (call invoke) w) in
  request_fields (self w') =
    (Props.prompt (props w), Props.api_url (props w),
     Props.octree_resolution (props w), Props.num_inference_steps (props w),
     Props.guidance_scale (props w), Props.texture (props w))
  /\ inputs_of (props w') = inputs_of (props w).
Proof.
  cbv zeta. rewrite run_invoke. cbv zeta.
  destruct (_ && _); [split; reflexivity |].
  pose proof (run_request_fields env capture_mesh (snapshot_world w)
                all_cmds_capture_mesh_fields) as Hc.
  pose proof (capture_mesh_frame env (snapshot_world w)) as Hf.
  cbv zeta in Hf. destruct Hf as (_ & Hp & _).
  change (props (snapshot_world w)) with (props w) in Hp.
  destruct (run env capture_mesh (snapshot_world w)) as [[u | r | e] w2];
    cbn [fst snd] in *; try (split; [exact Hc | rewrite Hp; reflexivity]).
  pose proof (run_request_fields env (call start_job) w2
                all_cmds_start_job_fields) as Hs.
  split; [rewrite Hs; exact Hc |].
  rewrite <- Hp. clear.
  unfold start_job, resolve_image_path, launch, startswith.
  destruct (String.prefix "//" (Op.image_path (self w2))) eqn:Hx;
    repeat progress (cbn; rewrite ?Hx); reflexivity.
Qed.

Lemma post_request_image env base w data :
  truthy (Op.selected_mesh_base64 (self w)) && Op.texture (self w) = false ->
  truthy (Op.image_path (self w)) = true ->
  os_path_exists env (Op.image_path (self w)) = true ->
  read_file env (Op.image_path (self w)) = Ok data ->
  posted (new_events w (snd (run env (post_request base) w))) =
    [ ("image", JStr (b64encode data)) :: params (self w) ].
Proof.
  intros Hm Ht Hx Hr. unfold post_request.
  repeat progress (cbn; rewrite ?Hm, ?Ht, ?Hx, ?Hr).
  destruct (requests_post env _ _); cbn;
    (erewrite new_events_app;
     [| cbn; rewrite <- ?app_assoc; simpl; reflexivity]); reflexivity.
Qed.

(** X20.  With a prompt and an image both entered and texture off, the
    status message of an accepted submission names the text prompt,
    while the one request the worker then sends (the image being on disk
    and readable) carries the image and no text. *)
Theorem status_names_prompt_while_image_is_sent env w data :
  Props.prompt (props w) <> "" ->
  Props.texture (props w) = false ->
  fst (run env (call invoke) w) = Ok RUNNING_MODAL ->
  let w1 := snd (run env (call invoke) w) in
  let path := Op.image_path (self w1) in
  path <> "" ->
  os_path_exists env path = true ->
  read_file env path = Ok data ->
  Props.status_message (props w1) =
    ("Generating White Mesh with Text Prompt..." ++ nl ++ wait_text)%string
  /\ posted (new_events w1 (snd (run env (call generate_model) w1))) =
     [ ("image", JStr (b64encode data)) :: params (self w1) ].
Proof.
  intros Hprompt Htex Hok.
  assert (Hw1 : Props.status_message
                  (props (snd (run env (call invoke) w))) =
                ("Generating White Mesh with Text Prompt..." ++ nl
                 ++ wait_text)%string
                /\ Op.texture (self (snd (run env (call invoke) w))) = false).
  { revert Hok. rewrite run_invoke. cbv zeta.
    destruct (_ && _); [discriminate |].
    pose proof (capture_mesh_frame env (snapshot_world w)) as Hf.
    cbv zeta in Hf.
    destruct (run env capture_mesh (snapshot_world w)) as [[u | r | e] w2];
      cbn [fst snd] in *;
      [| intros; exfalso; apply (proj1 Hf r); reflexivity | discriminate].
    destruct Hf as (_ & _ & Hp & _ & Ht & _). intros _.
    change (Op.prompt (self (snapshot_world w)))
      with (Props.prompt (props w)) in Hp.
    change (Op.texture (self (snapshot_world w)))
      with (Props.texture (props w)) in Ht.
    pose proof (run_start_job env w2) as Hs. cbv zeta in Hs.
    destruct Hs as (_ & _ & _ & Hmsg & _).
    pose proof (start_job_keeps_mesh env w2) as Hk. cbv zeta in Hk.
    destruct Hk as (_ & _ & _ & Hkt & _).
    rewrite Hmsg, Hkt, Ht, Htex. split; [| reflexivity].
    unfold status_text. cbn [Op.texture Op.prompt OpSet.image_path].
    rewrite Ht, Htex, Hp, andb_false_r.
    unfold truthy. apply String.eqb_neq in Hprompt. rewrite Hprompt.
    reflexivity. }
  cbv zeta. generalize dependent (snd (run env (call invoke) w)).
  intros w1 (Hmsg & Ht) Hpath Hx Hr. split; [exact Hmsg |].
  rewrite worker_posts_what_builder_posts. cbv zeta.
  change (params (self w1))
    with (params (self (record (EvReport INFO "Generation Start") w1))).
  apply post_request_image; cbn [self record]; try assumption.
  - rewrite Ht. apply andb_false_r.
  - unfold truthy. apply String.eqb_neq in Hpath. rewrite Hpath. reflexivity.
Qed.

(** X20, witness: [a red chair] together with [/img/cat.png]. *)
Lemma status_names_prompt_while_image_is_sent_witness :
  Props.status_message
    (props (after_invoke env_ok
              (fresh_world props_prompt_and_image scene_empty))) =
  ("Generating White Mesh with Text Prompt..." ++ nl ++ wait_text)%string
  /\ map keys
       (posted
          (new_events
             (after_invoke env_ok
                (fresh_world props_prompt_and_image scene_empty))
             (after_worker env_ok
                (fresh_world props_prompt_and_image scene_empty)))) =
     [ ["image"; "octree_resolution"; "num_inference_steps";
        "guidance_scale"; "texture"] ].
Proof.
  pose proof
    (status_names_prompt_while_image_is_sent env_ok
       (fresh_world props_prompt_and_image scene_empty) "PNG"
       ltac:(vm_compute; discriminate) ltac:(reflexivity)
       ltac:(vm_compute; reflexivity) ltac:(vm_compute; discriminate)
       ltac:(vm_compute; reflexivity) ltac:(vm_compute; reflexivity))
    as [H1 H2].
  split; [exact H1 |].
  unfold after_worker, after_invoke. rewrite H2. reflexivity.
Defined.
